(** * lib/orm/fields.py : field types of the ORM layer

    A shallow embedding of [lib/orm/fields.py] and of the part of the Python
    run time its methods rely on.

    Conventions of the embedding.
    - Python values are the inductive type [pyval]; [type_of] is Python's
      [type(x)], so [type(data) is not int] reads
      [negb (pytype_eqb (type_of data) TInt)].
    - The language is Python 3: [str] is a sequence of Unicode code points,
      [bytes] a sequence of octets, and a [bytes] object never compares equal
      to a [str] object.
    - A method that may raise returns a [result]; the exception classes are
      the constructors of [exn].  The message given to an exception is not
      modelled, only its class.
    - The modules [lib.regex], [lib.mimetype], the standard module [re] and
      the image codec [PIL] are not part of this file: they are taken as
      parameters (records [RegexLib], [MimeTypeLib], [ImageLib]). *)

From Stdlib Require Import List ZArith NArith Bool String Ascii Lia.
From Stdlib Require Import Strings.Byte.
Import ListNotations.

Set Implicit Arguments.
Set Warnings "-register-all".

Local Open Scope N_scope.

(** ** Exceptions and results *)

Inductive exn : Type :=
| Core400Exception      (* lib.exceptions : client-input error *)
| Core500Exception      (* lib.exceptions : server-side configuration error *)
| TypeError
| AttributeError
| UnicodeEncodeError
| re_error              (* re.error, raised by re.compile *)
| PIL_error.            (* any exception raised by the image codec *)

Inductive result (A : Type) : Type :=
| Return (a : A)
| Raise (e : exn).

Arguments Return {A} a.
Arguments Raise {A} e.

Definition bind {A B : Type} (m : result A) (k : A -> result B) : result B :=
  match m with
  | Return a => k a
  | Raise e => Raise e
  end.

Notation "x <- m ;; k" := (bind m (fun x => k))
  (at level 61, m at next level, right associativity).
Notation "m ;;; k" := (bind m (fun _ => k))
  (at level 61, right associativity).

(** [raise_if c e] is the statement [if c: raise e]. *)
Definition raise_if (c : bool) (e : exn) : result unit :=
  if c then Raise e else Return tt.

(** ** Python values *)

(** A [str] object: its code points. *)
Definition pystr : Type := list N.

(** A [bytes] object. *)
Definition pybytes : Type := list byte.

Inductive pytype : Type :=
| TNone | TBool | TInt | TFloat | TStr | TBytes | TList
| TDate | TDateTime | TTime
| TClass (name : string).      (* any other class *)

Inductive pyval : Type :=
| PyNone
| PyBool (b : bool)
| PyInt (z : Z)
| PyFloat (bits : Z)                       (* the IEEE 754 binary64 pattern *)
| PyStr (s : pystr)
| PyBytes (b : pybytes)
| PyList (l : list pyval)
| PyDate (year month day : Z)
| PyDateTime (year month day hour minute second microsecond : Z)
| PyTime (hour minute second microsecond : Z)
| PyObj (cls : string) (id : nat) (truth : bool).
    (* an instance of another class, with the truth value its class gives
       it ([__bool__] or [__len__]): an empty tuple or dict is false *)

(** [type(x)] *)
Definition type_of (x : pyval) : pytype :=
  match x with
  | PyNone => TNone
  | PyBool _ => TBool
  | PyInt _ => TInt
  | PyFloat _ => TFloat
  | PyStr _ => TStr
  | PyBytes _ => TBytes
  | PyList _ => TList
  | PyDate _ _ _ => TDate
  | PyDateTime _ _ _ _ _ _ _ => TDateTime
  | PyTime _ _ _ _ => TTime
  | PyObj c _ _ => TClass c
  end.

(** [t1 is t2] on the classes above. *)
Definition pytype_eqb (t1 t2 : pytype) : bool :=
  match t1, t2 with
  | TNone, TNone | TBool, TBool | TInt, TInt | TFloat, TFloat
  | TStr, TStr | TBytes, TBytes | TList, TList
  | TDate, TDate | TDateTime, TDateTime | TTime, TTime => true
  | TClass a, TClass b => String.eqb a b
  | _, _ => false
  end.

(** [issubclass(t1, t2)]: [bool] derives from [int] and [datetime] from
    [date]; the other classes above are unrelated. *)
Definition issubclass (t1 t2 : pytype) : bool :=
  match t1, t2 with
  | TBool, TInt => true
  | TDateTime, TDate => true
  | _, _ => pytype_eqb t1 t2
  end.

Definition isinstance (x : pyval) (t : pytype) : bool :=
  issubclass (type_of x) t.

(** Truth value of an object, as tested by [if x:].  Numbers are false
    when zero, sequences when empty; [date], [datetime] and [time] objects
    are always true; an object of another class has the truth value of
    its class. *)
Definition truthy (x : pyval) : bool :=
  match x with
  | PyNone => false
  | PyBool b => b
  | PyInt z => negb (Z.eqb z 0)
  | PyFloat bits => negb (Z.eqb bits 0 || Z.eqb bits (2 ^ 63))%Z
  | PyStr s => negb (Nat.eqb (List.length s) 0)
  | PyBytes b => negb (Nat.eqb (List.length b) 0)
  | PyList l => negb (Nat.eqb (List.length l) 0)
  | PyDate _ _ _ => true
  | PyDateTime _ _ _ _ _ _ _ => true
  | PyTime _ _ _ _ => true
  | PyObj _ _ truth => truth
  end.

(** A [str] literal of ASCII characters. *)
Fixpoint u (s : string) : pystr :=
  match s with
  | EmptyString => []
  | String c r => N_of_ascii c :: u r
  end.

Definition pystr_eqb (a b : pystr) : bool :=
  if list_eq_dec N.eq_dec a b then true else false.

Definition pybytes_eqb (a b : pybytes) : bool :=
  if list_eq_dec Byte.byte_eq_dec a b then true else false.

(** ** [str.encode("utf8")] *)

Definition octet (n : N) : byte :=
  match Byte.of_N n with
  | Some b => b
  | None => x00
  end.

(** The continuation octet carrying bits [6k+5 .. 6k] of [c]. *)
Definition cont (c : N) (k : N) : byte :=
  octet (N.lor 128 (N.land (N.shiftr c (6 * k)) 63)).

(** One code point.  Surrogates (U+D800 .. U+DFFF) cannot be encoded; a
    number above U+10FFFF is not a code point. *)
Definition utf8_encode_cp (c : N) : option pybytes :=
  if c <? 128 then Some [octet c]
  else if c <? 2048 then Some [octet (N.lor 192 (N.shiftr c 6)); cont c 0]
  else if c <? 65536 then
    if (55296 <=? c) && (c <=? 57343) then None
    else Some [octet (N.lor 224 (N.shiftr c 12)); cont c 1; cont c 0]
  else if c <? 1114112 then
    Some [octet (N.lor 240 (N.shiftr c 18)); cont c 2; cont c 1; cont c 0]
  else None.

Fixpoint utf8_encode (s : pystr) : option pybytes :=
  match s with
  | [] => Some []
  | c :: r =>
      match utf8_encode_cp c, utf8_encode r with
      | Some b, Some br => Some (b ++ br)
      | _, _ => None
      end
  end.

(** [x.encode("utf8")]: only [str] has the method among the classes above. *)
Definition py_encode_utf8 (x : pyval) : result pybytes :=
  match x with
  | PyStr s =>
      match utf8_encode s with
      | Some b => Return b
      | None => Raise UnicodeEncodeError
      end
  | _ => Raise AttributeError
  end.

(** [b == v] for a [bytes] object [b]. *)
Definition bytes_eq (b : pybytes) (v : pyval) : bool :=
  match v with
  | PyBytes b' => pybytes_eqb b b'
  | _ => false
  end.

(** [b in values] for a [bytes] object [b] and a list [values]. *)
Definition bytes_in (b : pybytes) (values : list pyval) : bool :=
  existsb (bytes_eq b) values.

(** [s == v] and [s in l] for a [str] object [s]. *)
Definition str_in (s : pystr) (l : list pystr) : bool :=
  existsb (pystr_eqb s) l.

(** ** The collaborators of the module *)

(** [re] and [lib.regex].  [re_match p s] tells whether [p.match(s)] is a
    match object ([true]) or [None] ([false]); [re_compile rx] is
    [re.compile(rx)], [None] standing for [re.error]. *)
Record RegexLib : Type := {
  Pattern : Type;
  re_match : Pattern -> pystr -> bool;
  re_compile : pystr -> option Pattern;
  HTMLColor : Pattern;
  RFC3339_date : Pattern;
  RFC3339_datetime : Pattern;
  RFC3339_time : Pattern;
  MAIL : Pattern;
  PHONE : Pattern;
  URL : Pattern;
  XSS : Pattern
}.

(** [lib.mimetype.MimeType]: the two lists of mime types used as defaults,
    [MimeType.check] and [MimeType.checkExtension]. *)
Record MimeTypeLib : Type := {
  openformat : list pystr;
  image : list pystr;
  MimeType_check : list pystr -> bool;
  MimeType_checkExtension : pystr -> pystr -> bool
}.

(** A binary stream ([io.BytesIO]): its buffer and the current position. *)
Record stream : Type := {
  buf : pybytes;
  pos : nat
}.

(** [io.BytesIO()] *)
Definition BytesIO : stream := {| buf := []; pos := 0 |}.

Inductive filetype : Type := JPEG | PNG | GIF.

(** [PIL.Image]: [Image.open(fp)] and [image.save(fp, format)], the latter
    returning the stream as it is after the call. *)
Record ImageLib : Type := {
  Image : Type;
  Image_open : stream -> result Image;
  Image_save : Image -> stream -> filetype -> result stream
}.

(** The first octets of a file of each format. *)
Definition signature (t : filetype) : pybytes :=
  match t with
  | JPEG => [xff; xd8; xff]
  | PNG => [x89; x50; x4e; x47; x0d; x0a; x1a; x0a]
  | GIF => [x47; x49; x46; x38]
  end.

Fixpoint starts_with (p b : pybytes) : bool :=
  match p, b with
  | [], _ => true
  | x :: p', y :: b' => Byte.eqb x y && starts_with p' b'
  | _ :: _, [] => false
  end.

Definition has_format (t : filetype) (s : stream) : bool :=
  starts_with (signature t) (buf s).

(** ** A small instance of each collaborator

    Used to run the definitions below on concrete inputs.  The patterns and
    the tables are examples; those of [lib.regex] and [lib.mimetype] are not
    known here and every general statement below holds for all instances. *)

Module Sample.

(** Regular expressions over code points, matched with derivatives. *)
Inductive rx : Type :=
| Void
| Eps
| Chr (c : N)
| Range (lo hi : N)
| Seq (a b : rx)
| Alt (a b : rx)
| Star (a : rx).

Fixpoint nullable (r : rx) : bool :=
  match r with
  | Void => false
  | Eps => true
  | Chr _ => false
  | Range _ _ => false
  | Seq a b => nullable a && nullable b
  | Alt a b => nullable a || nullable b
  | Star _ => true
  end.

Fixpoint deriv (c : N) (r : rx) : rx :=
  match r with
  | Void => Void
  | Eps => Void
  | Chr d => if c =? d then Eps else Void
  | Range lo hi => if (lo <=? c) && (c <=? hi) then Eps else Void
  | Seq a b =>
      if nullable a then Alt (Seq (deriv c a) b) (deriv c b)
      else Seq (deriv c a) b
  | Alt a b => Alt (deriv c a) (deriv c b)
  | Star a => Seq (deriv c a) (Star a)
  end.

(** [p.match(s) is not None]: some prefix of [s] belongs to the language. *)
Fixpoint prefix_match (r : rx) (s : pystr) : bool :=
  nullable r ||
  match s with
  | [] => false
  | c :: t => prefix_match (deriv c r) t
  end.

Fixpoint lit (s : pystr) : rx :=
  match s with
  | [] => Eps
  | c :: t => Seq (Chr c) (lit t)
  end.

Definition digit : rx := Range 48 57.
Definition hexdigit : rx := Alt digit (Alt (Range 65 70) (Range 97 102)).
Definition letter : rx := Alt (Range 65 90) (Range 97 122).
Fixpoint rep (n : nat) (r : rx) : rx :=
  match n with
  | O => Eps
  | S k => Seq r (rep k r)
  end.
Definition plus (r : rx) : rx := Seq r (Star r).

(** A pattern language reduced to literal characters: every character of
    the regular-expression syntax is refused. *)
Definition meta (c : N) : bool :=
  existsb (N.eqb c) (u ".^$*+?{}[]\|()").

Definition compile (s : pystr) : option rx :=
  if existsb meta s then None else Some (lit s).

Definition regex : RegexLib := {|
  Pattern := rx;
  re_match := prefix_match;
  re_compile := compile;
  (* #hhhhhh *)
  HTMLColor := Seq (Chr 35) (rep 6 hexdigit);
  (* dddd-dd-dd *)
  RFC3339_date :=
    Seq (rep 4 digit) (Seq (Chr 45) (Seq (rep 2 digit)
      (Seq (Chr 45) (rep 2 digit))));
  (* dddd-dd-ddTdd:dd:dd *)
  RFC3339_datetime :=
    Seq (rep 4 digit) (Seq (Chr 45) (Seq (rep 2 digit)
      (Seq (Chr 45) (Seq (rep 2 digit) (Seq (Chr 84)
        (Seq (rep 2 digit) (Seq (Chr 58) (Seq (rep 2 digit)
          (Seq (Chr 58) (rep 2 digit))))))))));
  (* dd:dd:dd *)
  RFC3339_time :=
    Seq (rep 2 digit) (Seq (Chr 58) (Seq (rep 2 digit)
      (Seq (Chr 58) (rep 2 digit))));
  (* letters@letters *)
  MAIL := Seq (plus letter) (Seq (Chr 64) (plus letter));
  (* an optional + and digits *)
  PHONE := Seq (Alt (Chr 43) Eps) (plus digit);
  (* http:// and a letter *)
  URL := Seq (lit (u "http://")) letter;
  (* anything up to a < *)
  XSS := Seq (Star (Alt (Range 0 59) (Range 61 1114111))) (Chr 60)
|}.

Definition table : list (pystr * list pystr) :=
  [ (u "image/png", [u "png"]);
    (u "image/jpeg", [u "jpg"; u "jpeg"; u "jpe"]);
    (u "image/gif", [u "gif"]);
    (u "image/bmp", [u "bmp"]);
    (u "application/pdf", [u "pdf"]);
    (u "text/plain", [u "txt"]) ].

Definition known (m : pystr) : bool :=
  existsb (fun e => pystr_eqb m (fst e)) table.

Definition mimetype : MimeTypeLib := {|
  openformat := [u "application/pdf"; u "text/plain"; u "image/png"];
  image := [u "image/png"; u "image/jpeg"; u "image/gif"; u "image/bmp"];
  MimeType_check := forallb known;
  MimeType_checkExtension := fun m e =>
    existsb (fun t => pystr_eqb m (fst t) && str_in e (snd t)) table
|}.

(** A codec whose files are a signature followed by the pixels. *)
Definition decode (b : pybytes) : result pybytes :=
  if starts_with (signature PNG) b
  then Return (skipn (List.length (signature PNG)) b)
  else if starts_with (signature JPEG) b
  then Return (skipn (List.length (signature JPEG)) b)
  else if starts_with (signature GIF) b
  then Return (skipn (List.length (signature GIF)) b)
  else Raise PIL_error.

Definition pil : ImageLib := {|
  Image := pybytes;
  Image_open := fun fp => decode (buf fp);
  Image_save := fun img fp t =>
    let out := (firstn (pos fp) (buf fp) ++ signature t ++ img)%list in
    Return {| buf := out; pos := List.length out |}
|}.

End Sample.

(** ** The classes of [lib/orm/fields.py] *)

(** [for x in l: f(x)], stopping at the first exception. *)
Fixpoint for_each {A : Type} (f : A -> result unit) (l : list A)
  : result unit :=
  match l with
  | [] => Return tt
  | x :: r => f x ;;; for_each f r
  end.

(** The keyword arguments of [Field.__init__]. *)
Record FieldArgs : Type := {
  kw_fieldName : pyval;
  kw_label : pyval;
  kw_help : pyval;
  kw_default : pyval;
  kw_identifier : pyval;
  kw_require : pyval;
  kw_copy : pyval;
  kw_unique : pyval;
  kw_compute : pyval;
  kw_constraints : pyval;
  kw_index : pyval;
  kw_readwrite : pyval;
  kw_readonly : pyval;
  kw_backendType : pyval
}.

(** The default values of the signature of [Field.__init__]. *)
Definition no_kw : FieldArgs := {|
  kw_fieldName := PyNone;
  kw_label := PyNone;
  kw_help := PyNone;
  kw_default := PyNone;
  kw_identifier := PyBool false;
  kw_require := PyBool true;
  kw_copy := PyBool true;
  kw_unique := PyBool false;
  kw_compute := PyNone;
  kw_constraints := PyNone;
  kw_index := PyBool false;
  kw_readwrite := PyList [PyStr (u "*")];
  kw_readonly := PyList [PyStr (u "*")];
  kw_backendType := PyNone
|}.

(** [kw.pop(key, d)] for a key given ([Some v]) or not ([None]). *)
Definition pop {A : Type} (given : option A) (d : A) : A :=
  match given with
  | Some v => v
  | None => d
  end.

(** class Index *)
Record Index : Type := { columns : pyval }.

Definition Index_init (columns : pyval) : Index := {| columns := columns |}.

Section Fields.

Variable R : RegexLib.
Variable M : MimeTypeLib.
Variable P : ImageLib.

(** The attributes set by [Field.__init__], and [regex]. *)
Record Field : Type := {
  regex : option (Pattern R);
  fieldName : pyval;
  label : pyval;
  help : pyval;
  default : pyval;
  identifier : pyval;
  require : pyval;
  unique : pyval;
  copy : pyval;
  compute : pyval;
  constraints : pyval;
  index : pyval;
  readwrite : pyval;
  readonly : pyval;
  backendType : pyval
}.

(** [Field.__init__]; [rx] is the value of [self.regex] when it runs: the
    class attribute, or what the subclass has assigned before. *)
Definition Field_init (rx : option (Pattern R)) (kw : FieldArgs) : Field :=
  let identifier := kw_identifier kw in
  {| regex := rx;
     fieldName := kw_fieldName kw;
     label := kw_label kw;
     help := kw_help kw;
     default := if truthy identifier then PyNone else kw_default kw;
     identifier := identifier;
     require := if truthy identifier then PyBool true else kw_require kw;
     unique := kw_unique kw;
     copy := kw_copy kw;
     compute := kw_compute kw;
     constraints := kw_constraints kw;
     index := kw_index kw;
     readwrite := kw_readwrite kw;
     readonly := kw_readonly kw;
     backendType := kw_backendType kw |}.

(** [p.match(data) is not None], for a pattern over [str]: any other
    class of [data] is a [TypeError]. *)
Definition py_match (p : Pattern R) (data : pyval) : result bool :=
  match data with
  | PyStr s => Return (re_match R p s)
  | _ => Raise TypeError
  end.

(** [self.regex.match(data) is not None], [self.regex] being possibly
    [None]. *)
Definition regex_match (self : Field) (data : pyval) : result bool :=
  match regex self with
  | Some p => py_match p data
  | None => Raise AttributeError
  end.

(** An object of one of the classes. *)
Inductive FieldObj : Type :=
| AField (base : Field)
| ABinaryField (base : Field) (mimeTypes : list pystr)
| AnImageField (base : Field) (mimeTypes : list pystr)
    (mimeType extension : pystr)
| ABoolField (base : Field)
| AColorField (base : Field) (length : pyval)
| ACurrencyField (base : Field) (size precision : pyval)
| ADateField (base : Field)
| ADateTimeField (base : Field)
| ADecimalField (base : Field) (size precision : pyval)
| AnEmailField (base : Field) (length : pyval)
| AnEnumField (base : Field) (values : list pyval)
| AListField (base : Field)
| AnIntField (base : Field) (size zerofill unsigned : pyval)
| ASetField (base : Field) (values : list pyval)
| AStringField (base : Field) (length : pyval)
| APhoneField (base : Field) (length : pyval)
| ATimeField (base : Field)
| AURLField (base : Field) (length : pyval).

Definition base_of (o : FieldObj) : Field :=
  match o with
  | AField b | ABinaryField b _ | AnImageField b _ _ _ | ABoolField b
  | AColorField b _ | ACurrencyField b _ _ | ADateField b
  | ADateTimeField b | ADecimalField b _ _ | AnEmailField b _
  | AnEnumField b _ | AListField b | AnIntField b _ _ _ | ASetField b _
  | AStringField b _ | APhoneField b _ | ATimeField b | AURLField b _ => b
  end.

(** [o.regex] *)
Definition regex_of (o : FieldObj) : option (Pattern R) :=
  regex (base_of o).

(** *** Constructors *)

Definition new_Field (kw : FieldArgs) : result FieldObj :=
  Return (AField (Field_init None kw)).

(** [BinaryField.__init__]: the attributes it leaves on [self]. *)
Definition BinaryField_init (mimeTypes : option (list pystr))
    (kw : FieldArgs) : result (Field * list pystr) :=
  let mimeTypes := pop mimeTypes (openformat M) in
  raise_if (negb (MimeType_check M mimeTypes)) Core500Exception ;;;
  Return (Field_init None kw, mimeTypes).

Definition new_BinaryField (mimeTypes : option (list pystr))
    (kw : FieldArgs) : result FieldObj :=
  a <- BinaryField_init mimeTypes kw ;;
  Return (ABinaryField (fst a) (snd a)).

Definition new_ImageField (mimeTypes : option (list pystr))
    (mimeType extension : option pystr) (kw : FieldArgs)
  : result FieldObj :=
  let mimeTypes := pop mimeTypes (image M) in
  let mimeType := pop mimeType (u "image/png") in
  let extension := pop extension (u "png") in
  raise_if (negb (MimeType_check M mimeTypes)) Core500Exception ;;;
  raise_if (negb (str_in mimeType mimeTypes)) Core500Exception ;;;
  raise_if (negb (MimeType_checkExtension M mimeType extension))
    Core400Exception ;;;
  a <- BinaryField_init (Some mimeTypes) kw ;;
  Return (AnImageField (fst a) (snd a) mimeType extension).

Definition new_BoolField (kw : FieldArgs) : result FieldObj :=
  Return (ABoolField (Field_init None kw)).

Definition new_ColorField (kw : FieldArgs) : result FieldObj :=
  Return (AColorField (Field_init (Some (HTMLColor R)) kw) (PyInt 15)).

Definition new_CurrencyField (kw : FieldArgs) : result FieldObj :=
  Return (ACurrencyField (Field_init None kw) (PyInt 10) (PyInt 2)).

Definition new_DateField (kw : FieldArgs) : result FieldObj :=
  Return (ADateField (Field_init (Some (RFC3339_date R)) kw)).

Definition new_DateTimeField (kw : FieldArgs) : result FieldObj :=
  Return (ADateTimeField (Field_init (Some (RFC3339_datetime R)) kw)).

Definition new_DecimalField (size precision : option pyval)
    (kw : FieldArgs) : result FieldObj :=
  Return (ADecimalField (Field_init None kw)
            (pop size (PyInt 10)) (pop precision (PyInt 5))).

Definition new_EmailField (kw : FieldArgs) : result FieldObj :=
  Return (AnEmailField (Field_init (Some (MAIL R)) kw) (PyInt 255)).

(** [values] is [None] when the key is missing or given as [None]. *)
Definition new_EnumField (values : option (list pyval)) (kw : FieldArgs)
  : result FieldObj :=
  match values with
  | None => Raise Core500Exception
  | Some values => Return (AnEnumField (Field_init None kw) values)
  end.

(** The [regex] attribute assigned by [ListField] and [StringField]. *)
Definition custom_regex (rx : option pystr) : result (Pattern R) :=
  match rx with
  | Some rx =>
      match re_compile R rx with
      | Some p => Return p
      | None => Raise re_error
      end
  | None => Return (XSS R)
  end.

Definition new_ListField (rx : option pystr) (kw : FieldArgs)
  : result FieldObj :=
  p <- custom_regex rx ;;
  Return (AListField (Field_init (Some p) kw)).

Definition new_IntField (size zerofill unsigned : option pyval)
    (kw : FieldArgs) : result FieldObj :=
  Return (AnIntField (Field_init None kw) (pop size PyNone)
            (pop zerofill (PyBool false)) (pop unsigned (PyBool false))).

Definition new_SetField (values : option (list pyval)) (kw : FieldArgs)
  : result FieldObj :=
  match values with
  | None => Raise Core500Exception
  | Some values => Return (ASetField (Field_init None kw) values)
  end.

Definition new_StringField (length : option pyval) (rx : option pystr)
    (kw : FieldArgs) : result FieldObj :=
  let length := pop length PyNone in
  p <- custom_regex rx ;;
  Return (AStringField (Field_init (Some p) kw) length).

Definition new_PhoneField (kw : FieldArgs) : result FieldObj :=
  Return (APhoneField (Field_init (Some (PHONE R)) kw) (PyInt 20)).

Definition new_TimeField (kw : FieldArgs) : result FieldObj :=
  Return (ATimeField (Field_init (Some (RFC3339_time R)) kw)).

Definition new_URLField (kw : FieldArgs) : result FieldObj :=
  Return (AURLField (Field_init (Some (URL R)) kw) (PyInt 2048)).

(** *** [check] *)

(** [Field.check], inherited by [ColorField], [EmailField], [PhoneField]
    and [URLField]. *)
Definition Field_check (self : Field) (data : pyval) : result unit :=
  match regex self with
  | Some p =>
      m <- py_match p data ;;
      raise_if (negb m) Core400Exception
  | None => Return tt
  end.

Definition BinaryField_check (mimeTypes : list pystr)
    (mimeType extension : pystr) : result unit :=
  raise_if (negb (str_in mimeType mimeTypes)) Core400Exception ;;;
  raise_if (negb (MimeType_checkExtension M mimeType extension))
    Core400Exception.

Definition BoolField_check (data : pyval) : result unit :=
  raise_if (negb (pytype_eqb (type_of data) TBool)) Core400Exception.

Definition CurrencyField_check (data : pyval) : result unit :=
  raise_if (negb (pytype_eqb (type_of data) TFloat)
            && negb (pytype_eqb (type_of data) TInt)) Core400Exception.

Definition DateField_check (data : pyval) : result unit :=
  raise_if (negb (pytype_eqb (type_of data) TDate)) Core400Exception.

Definition DateTimeField_check (data : pyval) : result unit :=
  raise_if (negb (pytype_eqb (type_of data) TDateTime)) Core400Exception.

Definition DecimalField_check (data : pyval) : result unit :=
  raise_if (negb (pytype_eqb (type_of data) TFloat)
            && negb (pytype_eqb (type_of data) TInt)) Core400Exception.

Definition EnumField_check (values : list pyval) (data : pyval)
  : result unit :=
  if pytype_eqb (type_of data) TList then Raise Core400Exception
  else
    b <- py_encode_utf8 data ;;
    raise_if (negb (bytes_in b values)) Core400Exception.

(** The elements a [for] loop goes through; only reached with a list. *)
Definition elements (data : pyval) : result (list pyval) :=
  match data with
  | PyList l => Return l
  | _ => Raise TypeError
  end.

Definition ListField_check (self : Field) (data : pyval) : result unit :=
  if negb (pytype_eqb (type_of data) TList) then Raise Core400Exception
  else
    l <- elements data ;;
    for_each (fun val =>
                m <- regex_match self val ;;
                raise_if m Core400Exception) l.

Definition IntField_check (data : pyval) : result unit :=
  raise_if (negb (pytype_eqb (type_of data) TInt)) Core400Exception.

Definition SetField_check (values : list pyval) (data : pyval)
  : result unit :=
  if negb (pytype_eqb (type_of data) TList) then Raise Core400Exception
  else
    l <- elements data ;;
    for_each (fun val =>
                b <- py_encode_utf8 val ;;
                raise_if (negb (bytes_in b values)) Core400Exception) l.

Definition StringField_check (self : Field) (data : pyval) : result unit :=
  m <- regex_match self data ;;
  raise_if m Core400Exception.

Definition TimeField_check (data : pyval) : result unit :=
  raise_if (negb (pytype_eqb (type_of data) TTime)) Core400Exception.

(** [o.check(data)]: the method of the class of [o].  [BinaryField.check]
    and so [ImageField.check] take two arguments; called with one they
    raise [TypeError]. *)
Definition check (o : FieldObj) (data : pyval) : result unit :=
  match o with
  | AField b | AColorField b _ | AnEmailField b _ | APhoneField b _
  | AURLField b _ => Field_check b data
  | ABinaryField _ _ | AnImageField _ _ _ _ => Raise TypeError
  | ABoolField _ => BoolField_check data
  | ACurrencyField _ _ _ => CurrencyField_check data
  | ADateField _ => DateField_check data
  | ADateTimeField _ => DateTimeField_check data
  | ADecimalField _ _ _ => DecimalField_check data
  | AnEnumField _ values => EnumField_check values data
  | AListField b => ListField_check b data
  | AnIntField _ _ _ _ => IntField_check data
  | ASetField _ values => SetField_check values data
  | AStringField b _ => StringField_check b data
  | ATimeField _ => TimeField_check data
  end.

(** [o.check(mimeType, extension)] *)
Definition check2 (o : FieldObj) (mimeType extension : pystr)
  : result unit :=
  match o with
  | ABinaryField _ mimeTypes | AnImageField _ mimeTypes _ _ =>
      BinaryField_check mimeTypes mimeType extension
  | _ => Raise TypeError
  end.

(** *** [ImageField.convert] *)

(** The format chosen for [self.extension], if any. *)
Definition filetype_of (extension : pystr) : option filetype :=
  if str_in extension [u "jpg"; u "jpeg"; u "jpe"] then Some JPEG
  else if str_in extension [u "png"] then Some PNG
  else if str_in extension [u "gif"] then Some GIF
  else None.

Definition ImageField_convert (extension : pystr) (data : stream)
  : result stream :=
  match filetype_of extension with
  | None => Return data
  | Some filetype =>
      image <- Image_open P data ;;
      let tmp := BytesIO in
      Image_save P image tmp filetype
  end.

(** [o.convert(data)] *)
Definition convert (o : FieldObj) (data : stream) : result stream :=
  match o with
  | AnImageField _ _ _ extension => ImageField_convert extension data
  | _ => Raise AttributeError
  end.

(** *** Vocabulary of the properties *)

Definition accepts (o : FieldObj) (data : pyval) : Prop :=
  check o data = Return tt.

Definition rejects (o : FieldObj) (data : pyval) : Prop :=
  check o data = Raise Core400Exception.

(** The classes whose [check] is [Field.check]. *)
Definition inherits_check (o : FieldObj) : bool :=
  match o with
  | AField _ | AColorField _ _ | AnEmailField _ _ | APhoneField _ _
  | AURLField _ _ => true
  | _ => false
  end.

Definition is_str (v : pyval) : bool := pytype_eqb (type_of v) TStr.

(** A [str] that can be encoded; its encoding. *)
Definition encodes_to (v : pyval) (b : pybytes) : Prop :=
  exists s, v = PyStr s /\ utf8_encode s = Some b.

(** [v.encode("utf8") in values], when [v] can be encoded. *)
Definition encoded_in (values : list pyval) (v : pyval) : bool :=
  match py_encode_utf8 v with
  | Return b => bytes_in b values
  | Raise _ => false
  end.

(** One iteration of the loop of [SetField.check]. *)
Definition Set_body (values : list pyval) (val : pyval) : result unit :=
  b <- py_encode_utf8 val ;;
  raise_if (negb (bytes_in b values)) Core400Exception.

Definition encodable (v : pyval) : bool :=
  match py_encode_utf8 v with
  | Return _ => true
  | Raise _ => false
  end.

(** Booleans, integers and numbers among the values. *)
Definition is_boolean (v : pyval) : bool :=
  match v with
  | PyBool _ => true
  | _ => false
  end.

Definition is_integer (v : pyval) : bool :=
  match v with
  | PyInt _ => true
  | _ => false
  end.

Definition is_numeric (v : pyval) : bool :=
  match v with
  | PyFloat _ | PyInt _ => true
  | _ => false
  end.

(** *** Declarations of fields *)

(** A call of one of the constructors, with the keyword arguments that the
    constructor takes: those the class pops from [kw] and those of the
    signature of [Field.__init__] (a keyword left out has its default
    value).  Any other keyword reaches [Field.__init__] through [**kw] and
    makes it raise [TypeError]; such calls are not values of this type. *)
Inductive call : Type :=
| Field_ (kw : FieldArgs)
| BinaryField_ (mimeTypes : option (list pystr)) (kw : FieldArgs)
| ImageField_ (mimeTypes : option (list pystr))
    (mimeType extension : option pystr) (kw : FieldArgs)
| BoolField_ (kw : FieldArgs)
| ColorField_ (kw : FieldArgs)
| CurrencyField_ (kw : FieldArgs)
| DateField_ (kw : FieldArgs)
| DateTimeField_ (kw : FieldArgs)
| DecimalField_ (size precision : option pyval) (kw : FieldArgs)
| EmailField_ (kw : FieldArgs)
| EnumField_ (values : option (list pyval)) (kw : FieldArgs)
| ListField_ (rx : option pystr) (kw : FieldArgs)
| IntField_ (size zerofill unsigned : option pyval) (kw : FieldArgs)
| SetField_ (values : option (list pyval)) (kw : FieldArgs)
| StringField_ (length : option pyval) (rx : option pystr)
    (kw : FieldArgs)
| PhoneField_ (kw : FieldArgs)
| TimeField_ (kw : FieldArgs)
| URLField_ (kw : FieldArgs).

Definition construct (c : call) : result FieldObj :=
  match c with
  | Field_ kw => new_Field kw
  | BinaryField_ mimeTypes kw => new_BinaryField mimeTypes kw
  | ImageField_ mimeTypes mimeType extension kw =>
      new_ImageField mimeTypes mimeType extension kw
  | BoolField_ kw => new_BoolField kw
  | ColorField_ kw => new_ColorField kw
  | CurrencyField_ kw => new_CurrencyField kw
  | DateField_ kw => new_DateField kw
  | DateTimeField_ kw => new_DateTimeField kw
  | DecimalField_ size precision kw => new_DecimalField size precision kw
  | EmailField_ kw => new_EmailField kw
  | EnumField_ values kw => new_EnumField values kw
  | ListField_ rx kw => new_ListField rx kw
  | IntField_ size zerofill unsigned kw =>
      new_IntField size zerofill unsigned kw
  | SetField_ values kw => new_SetField values kw
  | StringField_ length rx kw => new_StringField length rx kw
  | PhoneField_ kw => new_PhoneField kw
  | TimeField_ kw => new_TimeField kw
  | URLField_ kw => new_URLField kw
  end.

(** The arguments that reach [Field.__init__]. *)
Definition kw_of (c : call) : FieldArgs :=
  match c with
  | Field_ kw | BinaryField_ _ kw | ImageField_ _ _ _ kw | BoolField_ kw
  | ColorField_ kw | CurrencyField_ kw | DateField_ kw
  | DateTimeField_ kw | DecimalField_ _ _ kw | EmailField_ kw
  | EnumField_ _ kw | ListField_ _ kw | IntField_ _ _ _ kw
  | SetField_ _ kw | StringField_ _ _ kw | PhoneField_ kw | TimeField_ kw
  | URLField_ kw => kw
  end.

(** *** The properties as the specification words them

    Each is compared with the code below. *)

(** "For all fields with a regex, check accepts exactly the strings
    matching that pattern." *)
Definition regex_decides_check (o : FieldObj) : Prop :=
  forall p s, regex_of o = Some p ->
    (re_match R p s = true -> accepts o (PyStr s)) /\
    (re_match R p s = false -> rejects o (PyStr s)).



(** "An invalid configuration fails with a configuration error; a
    client-input error is raised only by check." *)
Definition declaration_never_400 : Prop :=
  forall c, construct c <> Raise Core400Exception.

(** [data] is a string matched by [p]. *)
Definition matched (p : Pattern R) (data : pyval) : Prop :=
  exists s, data = PyStr s /\ re_match R p s = true.

(** "check fails with a validation error when regex is set and the input
    does not match it, and returns normally in every other case." *)
Definition Field_check_total (self : Field) : Prop :=
  forall data,
    (forall p, regex self = Some p -> ~ matched p data ->
       Field_check self data = Raise Core400Exception) /\
    (~ (exists p, regex self = Some p /\ ~ matched p data) ->
       Field_check self data = Return tt).

(** "A values collection containing only unencoded strings accepts no
    input." *)
Definition str_values_accept_nothing (values : list pyval) : Prop :=
  forallb is_str values = true ->
  forall data,
    EnumField_check values data <> Return tt /\
    SetField_check values data <> Return tt.

End Fields.

(** ** Vocabulary of further properties *)

(** The code points that [str.encode] refuses, and the numbers that are
    code points. *)
Definition is_surrogate (c : N) : bool := (55296 <=? c) && (c <=? 57343).

Definition is_code_point (c : N) : bool := c <? 1114112.

(** The octets of the encoding of a code point, as numbers. *)
Definition cp_octets (c : N) : option (list N) :=
  if c <? 128 then Some [c]
  else if c <? 2048 then Some [192 + c / 64; 128 + c mod 64]
  else if c <? 65536 then
    if (55296 <=? c) && (c <=? 57343) then None
    else Some [224 + c / 4096; 128 + (c / 64) mod 64; 128 + c mod 64]
  else if c <? 1114112 then
    Some [240 + c / 262144; 128 + (c / 4096) mod 64;
          128 + (c / 64) mod 64; 128 + c mod 64]
  else None.

(** Dates, date-times and times among the values. *)
Definition is_date (v : pyval) : bool :=
  match v with
  | PyDate _ _ _ => true
  | _ => false
  end.

Definition is_datetime (v : pyval) : bool :=
  match v with
  | PyDateTime _ _ _ _ _ _ _ => true
  | _ => false
  end.

Definition is_time (v : pyval) : bool :=
  match v with
  | PyTime _ _ _ _ => true
  | _ => false
  end.



(** The classes whose [check] takes the value alone. *)
Definition one_argument {R : RegexLib} (o : FieldObj R) : bool :=
  match o with
  | ABinaryField _ _ | AnImageField _ _ _ _ => false
  | _ => true
  end.

(** ** Keyword arguments as a dictionary *)








(** ** Fields used as examples *)

(** A [bytes] literal of ASCII characters. *)
Definition ascii_bytes (s : string) : pybytes := list_byte_of_string s.

Module Examples.

(** Field(identifier=True, require=False, default="x") *)
Definition id_kw : FieldArgs := {|
  kw_fieldName := PyNone;
  kw_label := PyNone;
  kw_help := PyNone;
  kw_default := PyStr (u "x");
  kw_identifier := PyBool true;
  kw_require := PyBool false;
  kw_copy := PyBool true;
  kw_unique := PyBool false;
  kw_compute := PyNone;
  kw_constraints := PyNone;
  kw_index := PyBool false;
  kw_readwrite := PyList [PyStr (u "*")];
  kw_readonly := PyList [PyStr (u "*")];
  kw_backendType := PyNone
|}.

Definition id_field : FieldObj Sample.regex :=
  AField (Field_init Sample.regex None id_kw).

(** Field() *)
Definition plain : Field Sample.regex := Field_init Sample.regex None no_kw.

(** ColorField() *)
Definition color_base : Field Sample.regex :=
  Field_init Sample.regex (Some (HTMLColor Sample.regex)) no_kw.

Definition color : FieldObj Sample.regex := AColorField color_base (PyInt 15).

(** DateField() *)
Definition date : FieldObj Sample.regex :=
  ADateField (Field_init Sample.regex (Some (RFC3339_date Sample.regex)) no_kw).

(** StringField() *)
Definition text : FieldObj Sample.regex :=
  AStringField (Field_init Sample.regex (Some (XSS Sample.regex)) no_kw) PyNone.

(** values=["red", "blue"] and values=[b"red", b"blue"] *)
Definition colours_str : list pyval := [PyStr (u "red"); PyStr (u "blue")].
Definition colours_bytes : list pyval := [PyBytes (ascii_bytes "red");
   PyBytes (ascii_bytes "blue")].

(** A JPEG file of two pixels. *)
Definition jpeg_file : stream :=
  {| buf := [xff; xd8; xff; x01; x02]; pos := 0 |}.

Definition png_file : stream :=
  {| buf := [x89; x50; x4e; x47; x0d; x0a; x1a; x0a; x01; x02]; pos := 10 |}.

End Examples.

Module MoreExamples.

(** Field(identifier=1, require=False, default="x", unique=True) *)
Definition one_kw : FieldArgs := {|
  kw_fieldName := PyStr (u "uid");
  kw_label := PyNone;
  kw_help := PyNone;
  kw_default := PyStr (u "x");
  kw_identifier := PyInt 1;
  kw_require := PyBool false;
  kw_copy := PyBool false;
  kw_unique := PyBool true;
  kw_compute := PyNone;
  kw_constraints := PyNone;
  kw_index := PyBool false;
  kw_readwrite := PyList [PyStr (u "admin")];
  kw_readonly := PyList [PyStr (u "*")];
  kw_backendType := PyNone
|}.

(** An [IntField] declared with them. *)
Definition uid : FieldObj Sample.regex :=
  AnIntField (Field_init Sample.regex None one_kw) PyNone (PyBool false)
    (PyBool false).

(** ImageField() *)
Definition picture : FieldObj Sample.regex :=
  AnImageField (Field_init Sample.regex None no_kw) (image Sample.mimetype)
    (u "image/png") (u "png").

(** ListField() *)
Definition tags : Field Sample.regex :=
  Field_init Sample.regex (Some (XSS Sample.regex)) no_kw.


(** Field(identifier=(), require=False, default="x"): an empty tuple *)
Definition empty_kw : FieldArgs := {|
  kw_fieldName := PyNone;
  kw_label := PyNone;
  kw_help := PyNone;
  kw_default := PyStr (u "x");
  kw_identifier := PyObj "tuple" 0 false;
  kw_require := PyBool false;
  kw_copy := PyBool true;
  kw_unique := PyBool false;
  kw_compute := PyNone;
  kw_constraints := PyNone;
  kw_index := PyBool false;
  kw_readwrite := PyList [PyStr (u "*")];
  kw_readonly := PyList [PyStr (u "*")];
  kw_backendType := PyNone
|}.

Definition no_id : FieldObj Sample.regex :=
  AField (Field_init Sample.regex None empty_kw).

(** A file that is no image. *)
Definition text_file : stream := {| buf := [x68; x69]; pos := 0 |}.

End MoreExamples.

(** * Properties *)

(** ** The run-time model *)

Lemma pytype_eqb_eq (t1 t2 : pytype) : pytype_eqb t1 t2 = true <-> t1 = t2.
Proof.
  split.
  - destruct t1, t2; simpl; intros H; try discriminate; try reflexivity.
    apply String.eqb_eq in H. now subst.
  - intros <-. destruct t1; simpl; try reflexivity. apply String.eqb_refl.
Qed.

Lemma pytype_eqb_neq (t1 t2 : pytype) : pytype_eqb t1 t2 = false <-> t1 <> t2.
Proof.
  rewrite <- pytype_eqb_eq. destruct (pytype_eqb t1 t2); intuition congruence.
Qed.

Lemma type_of_list (data : pyval) :
  type_of data = TList <-> exists l, data = PyList l.
Proof.
  split.
  - destruct data; simpl; intros H; try discriminate. now eexists.
  - intros [l ->]. reflexivity.
Qed.

Lemma type_of_str (data : pyval) :
  is_str data = true <-> exists s, data = PyStr s.
Proof.
  unfold is_str. split.
  - destruct data; simpl; intros H; try discriminate. now eexists.
  - intros [s ->]. reflexivity.
Qed.

Lemma pystr_eqb_eq (a b : pystr) : pystr_eqb a b = true <-> a = b.
Proof.
  unfold pystr_eqb. destruct (list_eq_dec N.eq_dec a b); intuition congruence.
Qed.

Lemma pybytes_eqb_eq (a b : pybytes) : pybytes_eqb a b = true <-> a = b.
Proof.
  unfold pybytes_eqb.
  destruct (list_eq_dec Byte.byte_eq_dec a b); intuition congruence.
Qed.

(** [b in values] holds exactly when [values] holds the [bytes] object [b]. *)
Lemma bytes_in_spec (b : pybytes) (values : list pyval) :
  bytes_in b values = true <-> In (PyBytes b) values.
Proof.
  unfold bytes_in. rewrite existsb_exists. split.
  - intros [v [Hin Heq]]. destruct v; simpl in Heq; try discriminate.
    apply pybytes_eqb_eq in Heq. now subst.
  - intros Hin. exists (PyBytes b). split; [assumption|].
    simpl. now apply pybytes_eqb_eq.
Qed.

(** No [bytes] object belongs to a list of [str] objects. *)
Lemma bytes_in_str_values (b : pybytes) (values : list pyval) :
  forallb is_str values = true -> bytes_in b values = false.
Proof.
  intros Hall. destruct (bytes_in b values) eqn:E; [|reflexivity].
  apply bytes_in_spec in E. rewrite forallb_forall in Hall.
  apply Hall in E. discriminate.
Qed.

(** ** Loops *)

Lemma for_each_ok {A : Type} (f : A -> result unit) (l : list A) :
  for_each f l = Return tt <-> Forall (fun x => f x = Return tt) l.
Proof.
  induction l as [|x r IH]; simpl.
  - split; [constructor | reflexivity].
  - split.
    + intros H. destruct (f x) as [[]|e] eqn:E; simpl in H; [|discriminate].
      constructor; [assumption | now apply IH].
    + intros H. inversion H as [|? ? Hx Hr]; subst.
      rewrite Hx. simpl. now apply IH.
Qed.


(** ** The constructor of [Field] *)

Section Properties.

Variable R : RegexLib.
Variable M : MimeTypeLib.
Variable P : ImageLib.

Lemma Field_init_identifier (rx : option (Pattern R)) (kw : FieldArgs) :
  truthy (kw_identifier kw) = true ->
  require (Field_init R rx kw) = PyBool true /\
  default (Field_init R rx kw) = PyNone.
Proof. intros H. simpl. now rewrite H. Qed.

Lemma Field_init_plain (rx : option (Pattern R)) (kw : FieldArgs) :
  truthy (kw_identifier kw) = false ->
  require (Field_init R rx kw) = kw_require kw /\
  default (Field_init R rx kw) = kw_default kw.
Proof. intros H. simpl. now rewrite H. Qed.

(** Every constructor hands its keyword arguments to [Field.__init__]. *)
Lemma construct_base (c : call) (o : FieldObj R) :
  construct R M c = Return o ->
  exists rx, base_of o = Field_init R rx (kw_of c).
Proof.
  destruct c; simpl;
    unfold new_Field, new_BinaryField, new_ImageField, new_BoolField,
      new_ColorField, new_CurrencyField, new_DateField, new_DateTimeField,
      new_DecimalField, new_EmailField, new_EnumField, new_ListField,
      new_IntField, new_SetField, new_StringField, new_PhoneField,
      new_TimeField, new_URLField, BinaryField_init, custom_regex, raise_if;
    intros H;
    repeat match type of H with
           | context [match ?x with _ => _ end] => destruct x; simpl in H
           | context [if ?x then _ else _] => destruct x; simpl in H
           end;
    try discriminate;
    injection H as <-; simpl; eexists; reflexivity.
Qed.

(** C2 -- A field declared with [identifier=True] has [require] equal to
    [True] and [default] equal to [None], whatever was passed for
    [require] and [default]; declared with [identifier=False] it keeps
    both arguments as they were passed.  This holds for [Field] and for
    every subclass, since each constructor ends in [Field.__init__]. *)
Theorem identifier_forces_require_and_default (c : call) (o : FieldObj R) :
  construct R M c = Return o ->
  (kw_identifier (kw_of c) = PyBool true ->
   require (base_of o) = PyBool true /\ default (base_of o) = PyNone) /\
  (kw_identifier (kw_of c) = PyBool false ->
   require (base_of o) = kw_require (kw_of c) /\
   default (base_of o) = kw_default (kw_of c)).
Proof.
  intros H. destruct (construct_base _ H) as [rx ->]. split; intros Hi.
  - apply Field_init_identifier. now rewrite Hi.
  - apply Field_init_plain. now rewrite Hi.
Qed.

(** ** Type-validated fields *)

Lemma type_is_bool (data : pyval) :
  pytype_eqb (type_of data) TBool = is_boolean data.
Proof. destruct data; reflexivity. Qed.

Lemma type_is_int (data : pyval) :
  pytype_eqb (type_of data) TInt = is_integer data.
Proof. destruct data; reflexivity. Qed.

Lemma type_is_float_or_int (data : pyval) :
  pytype_eqb (type_of data) TFloat || pytype_eqb (type_of data) TInt
  = is_numeric data.
Proof. destruct data; reflexivity. Qed.

(** C6 -- [BoolField.check] returns normally on booleans and raises
    [Core400Exception] on every other value; [IntField.check] does so for
    integers, [CurrencyField.check] and [DecimalField.check] for numbers
    (float or int).  The test is on the run-time type of the input. *)
Theorem type_validated_checks (data : pyval) :
  BoolField_check data
    = (if is_boolean data then Return tt else Raise Core400Exception) /\
  IntField_check data
    = (if is_integer data then Return tt else Raise Core400Exception) /\
  CurrencyField_check data
    = (if is_numeric data then Return tt else Raise Core400Exception) /\
  DecimalField_check data
    = (if is_numeric data then Return tt else Raise Core400Exception) /\
  (is_boolean data = pytype_eqb (type_of data) TBool) /\
  (is_integer data = pytype_eqb (type_of data) TInt) /\
  (is_numeric data = pytype_eqb (type_of data) TFloat
                     || pytype_eqb (type_of data) TInt).
Proof.
  unfold BoolField_check, IntField_check, CurrencyField_check,
    DecimalField_check, raise_if.
  rewrite <- negb_orb, type_is_float_or_int, type_is_bool, type_is_int.
  repeat split;
    (destruct (is_boolean data) + destruct (is_integer data)
     + destruct (is_numeric data)); reflexivity.
Qed.

(** C9 -- [IntField.check] raises [Core400Exception] on [True] and on
    [False], although a boolean is an instance of [int]. *)
Theorem IntField_check_rejects_bool (b : bool) :
  isinstance (PyBool b) TInt = true /\
  IntField_check (PyBool b) = Raise Core400Exception /\
  forall base size zerofill unsigned,
    rejects (AnIntField (R := R) base size zerofill unsigned) (PyBool b).
Proof. repeat split. Qed.

(** ** Regex-validated fields *)

Lemma Field_check_no_regex (self : Field R) (data : pyval) :
  regex self = None -> Field_check self data = Return tt.
Proof. unfold Field_check. now intros ->. Qed.

Lemma Field_check_str (self : Field R) (p : Pattern R) (s : pystr) :
  regex self = Some p ->
  Field_check self (PyStr s)
  = if re_match R p s then Return tt else Raise Core400Exception.
Proof.
  unfold Field_check. intros ->. simpl. now destruct (re_match R p s).
Qed.

(** With a regex, a value that is not a [str] is refused by the regex
    engine, not by the field. *)
Lemma Field_check_not_str (self : Field R) (p : Pattern R) (data : pyval) :
  regex self = Some p -> is_str data = false ->
  Field_check self data = Raise TypeError.
Proof.
  unfold Field_check. intros -> H. destruct data; try reflexivity.
  discriminate.
Qed.

Lemma StringField_check_str (self : Field R) (p : Pattern R) (s : pystr) :
  regex self = Some p ->
  StringField_check self (PyStr s)
  = if re_match R p s then Raise Core400Exception else Return tt.
Proof.
  unfold StringField_check, regex_match. intros ->. simpl.
  now destruct (re_match R p s).
Qed.

Lemma ListField_check_not_list (self : Field R) (data : pyval) :
  type_of data <> TList ->
  ListField_check self data = Raise Core400Exception.
Proof.
  unfold ListField_check. intros H. apply pytype_eqb_neq in H.
  now rewrite H.
Qed.


(** C1 (amended) -- For a field whose [check] is the one of [Field]
    ([Field], [ColorField], [EmailField], [PhoneField], [URLField]) and
    whose regex is set, [check] accepts exactly the strings the regex
    matches and raises [Core400Exception] on the others.
    [StringField.check] does the opposite: it accepts exactly the strings
    its regex does not match.  [DateField], [DateTimeField] and
    [TimeField] have a regex but their [check] tests the type of the
    input and raises [Core400Exception] on every string, as does
    [ListField.check], which wants a list. *)
Theorem check_of_fields_with_regex (o : FieldObj R) (p : Pattern R)
    (s : pystr) :
  regex_of o = Some p ->
  match o with
  | AField _ | AColorField _ _ | AnEmailField _ _ | APhoneField _ _
  | AURLField _ _ =>
      check o (PyStr s)
      = if re_match R p s then Return tt else Raise Core400Exception
  | AStringField _ _ =>
      check o (PyStr s)
      = if re_match R p s then Raise Core400Exception else Return tt
  | ADateField _ | ADateTimeField _ | ATimeField _ | AListField _ =>
      check o (PyStr s) = Raise Core400Exception
  | _ => True
  end.
Proof.
  unfold regex_of. intros H.
  destruct o; simpl in *; trivial;
    solve [ now apply Field_check_str
          | now apply StringField_check_str ].
Qed.

(** C5 (amended) -- [Field.check] returns normally on every input when
    the regex is [None]; when the regex is set it returns normally on a
    string the regex matches and raises [Core400Exception] on a string it
    does not match. *)
Theorem Field_check_on_strings (self : Field R) (data : pyval)
    (s : pystr) :
  (regex self = None -> Field_check self data = Return tt) /\
  (forall p, regex self = Some p ->
     Field_check self (PyStr s)
     = if re_match R p s then Return tt else Raise Core400Exception).
Proof.
  split.
  - apply Field_check_no_regex.
  - intros p. apply Field_check_str.
Qed.


(** A matched element raises [Core400Exception] when all the elements
    before it are strings the regex does not match, whatever follows. *)
Lemma ListField_check_first_match (self : Field R) (p : Pattern R)
    (pre : list pystr) (s : pystr) (post : list pyval) :
  regex self = Some p ->
  existsb (re_match R p) pre = false -> re_match R p s = true ->
  ListField_check self (PyList (map PyStr pre ++ PyStr s :: post))
  = Raise Core400Exception.
Proof.
  unfold ListField_check, regex_match. intros -> Hpre Hs. simpl.
  induction pre as [|a r IH]; simpl in *.
  - now rewrite Hs.
  - apply orb_false_iff in Hpre as [Ha Hr]. rewrite Ha. simpl. now apply IH.
Qed.

(** ** Membership-validated fields *)

Lemma encodable_spec (v : pyval) :
  encodable v = true <-> exists b, encodes_to v b.
Proof.
  unfold encodable, encodes_to, py_encode_utf8. split.
  - destruct v; try discriminate.
    destruct (utf8_encode s) as [b|] eqn:E; [|discriminate].
    intros _. exists b, s. now split.
  - intros [b [s [-> E]]]. now rewrite E.
Qed.

Lemma encoded_in_spec (values : list pyval) (v : pyval) :
  encoded_in values v = true
  <-> exists b, encodes_to v b /\ In (PyBytes b) values.
Proof.
  unfold encoded_in, encodes_to, py_encode_utf8. split.
  - destruct v; try discriminate.
    destruct (utf8_encode s) as [b|] eqn:E; [|discriminate].
    intros H. exists b. split; [now exists s | now apply bytes_in_spec].
  - intros [b [[s [-> E]] Hin]]. rewrite E. now apply bytes_in_spec.
Qed.

Lemma Set_body_ok (values : list pyval) (val : pyval) :
  Set_body values val = Return tt <-> encoded_in values val = true.
Proof.
  unfold Set_body, encoded_in.
  destruct (py_encode_utf8 val) as [b|e]; simpl.
  - unfold raise_if. destruct (bytes_in b values); simpl;
      intuition congruence.
  - intuition congruence.
Qed.

Lemma Set_body_encodable (values : list pyval) (val : pyval) :
  encodable val = true ->
  Set_body values val
  = if encoded_in values val then Return tt else Raise Core400Exception.
Proof.
  unfold Set_body, encoded_in, encodable.
  destruct (py_encode_utf8 val) as [b|e]; simpl; [|discriminate].
  intros _. unfold raise_if. now destruct (bytes_in b values).
Qed.

Lemma SetField_check_list (values : list pyval) (l : list pyval) :
  SetField_check values (PyList l) = for_each (Set_body values) l.
Proof. reflexivity. Qed.



Lemma SetField_check_ok (values : list pyval) (data : pyval) :
  SetField_check values data = Return tt
  <-> exists l, data = PyList l /\ forallb (encoded_in values) l = true.
Proof.
  split.
  - intros H. destruct (pytype_eqb (type_of data) TList) eqn:E.
    + apply pytype_eqb_eq, type_of_list in E as [l ->]. exists l.
      split; [reflexivity|]. rewrite SetField_check_list in H.
      apply for_each_ok in H. apply forallb_forall. intros v Hv.
      rewrite Forall_forall in H. now apply Set_body_ok, H.
    + unfold SetField_check in H. rewrite E in H. discriminate.
  - intros [l [-> H]]. rewrite SetField_check_list. apply for_each_ok.
    rewrite forallb_forall in H. apply Forall_forall. intros v Hv.
    now apply Set_body_ok, H.
Qed.



Lemma EnumField_check_ok (values : list pyval) (data : pyval) :
  EnumField_check values data = Return tt
  <-> encoded_in values data = true.
Proof.
  rewrite <- Set_body_ok. unfold EnumField_check.
  destruct (pytype_eqb (type_of data) TList) eqn:E; [|reflexivity].
  apply pytype_eqb_eq, type_of_list in E as [l ->]. unfold Set_body. simpl.
  intuition congruence.
Qed.

(** A list of [str] objects holds the encoding of nothing. *)
Lemma encoded_in_str_values (values : list pyval) (v : pyval) :
  forallb is_str values = true -> encoded_in values v = false.
Proof.
  intros H. unfold encoded_in. destruct (py_encode_utf8 v); [|reflexivity].
  now apply bytes_in_str_values.
Qed.


(** C10 (amended) -- [EnumField.check] and [SetField.check] decide
    membership on the UTF-8 encoding: a string is accepted by
    [EnumField.check] exactly when its encoding, a [bytes] object, is
    among the declared values, and a list is accepted by [SetField.check]
    exactly when this holds of each element.  When the declared values are
    all [str] objects, [EnumField.check] accepts no input and
    [SetField.check] accepts the empty list and nothing else. *)
Theorem membership_is_on_bytes (values : list pyval) (data : pyval) :
  (forall s, EnumField_check values (PyStr s) = Return tt
             <-> exists b, utf8_encode s = Some b /\
                           In (PyBytes b) values) /\
  (forall l, SetField_check values (PyList l) = Return tt
             <-> Forall (fun v => exists b, encodes_to v b /\
                                            In (PyBytes b) values) l) /\
  (forallb is_str values = true ->
   EnumField_check values data <> Return tt /\
   (SetField_check values data = Return tt <-> data = PyList [])).
Proof.
  split; [|split].
  - intros s. rewrite EnumField_check_ok, encoded_in_spec.
    split.
    + intros [b [[s' [E Hs]] Hin]]. injection E as <-. now exists b.
    + intros [b [Hs Hin]]. exists b. split; [now exists s | assumption].
  - intros l. rewrite SetField_check_list, for_each_ok.
    split; intros H; eapply Forall_impl; try exact H; intros v Hv;
      [now apply encoded_in_spec, Set_body_ok
      | now apply Set_body_ok, encoded_in_spec].
  - intros Hstr. split.
    + rewrite EnumField_check_ok. now rewrite encoded_in_str_values.
    + rewrite SetField_check_ok. split.
      * intros [l [-> H]]. destruct l as [|v r]; [reflexivity|].
        simpl in H. now rewrite encoded_in_str_values in H.
      * intros ->. now exists [].
Qed.

(** ** Declaration errors *)

(** [BinaryField.check] accepts exactly an allowed mime type with an
    extension that the registry associates with it. *)
Lemma BinaryField_check_spec (mimeTypes : list pystr)
    (mimeType extension : pystr) :
  BinaryField_check M mimeTypes mimeType extension
  = if str_in mimeType mimeTypes
       && MimeType_checkExtension M mimeType extension
    then Return tt else Raise Core400Exception.
Proof.
  unfold BinaryField_check, raise_if.
  destruct (str_in mimeType mimeTypes); simpl; [|reflexivity].
  now destruct (MimeType_checkExtension M mimeType extension).
Qed.

(** The configuration errors that are reported as such. *)
Lemma configuration_errors_500 (kw : FieldArgs) :
  construct R M (EnumField_ None kw) = Raise Core500Exception /\
  construct R M (SetField_ None kw) = Raise Core500Exception /\
  (forall mimeTypes,
     MimeType_check M (pop mimeTypes (openformat M)) = false ->
     construct R M (BinaryField_ mimeTypes kw) = Raise Core500Exception) /\
  (forall mimeTypes mimeType extension,
     MimeType_check M (pop mimeTypes (image M)) = false ->
     construct R M (ImageField_ mimeTypes mimeType extension kw)
     = Raise Core500Exception) /\
  (forall mimeTypes mimeType extension,
     MimeType_check M (pop mimeTypes (image M)) = true ->
     str_in (pop mimeType (u "image/png")) (pop mimeTypes (image M)) = false ->
     construct R M (ImageField_ mimeTypes mimeType extension kw)
     = Raise Core500Exception).
Proof.
  repeat split; intros; unfold construct; try reflexivity.
  - unfold new_BinaryField, BinaryField_init. now rewrite H.
  - unfold new_ImageField. now rewrite H.
  - unfold new_ImageField. now rewrite H, H0.
Qed.

(** C4 -- [ImageField.__init__] raises [Core400Exception], the client-input
    error, when the output mime type and the output extension do not match:
    a declaration error that is not reported as a configuration error. *)
Theorem ImageField_mismatch_raises_400 (mimeTypes : option (list pystr))
    (mimeType extension : option pystr) (kw : FieldArgs) :
  MimeType_check M (pop mimeTypes (image M)) = true ->
  str_in (pop mimeType (u "image/png")) (pop mimeTypes (image M)) = true ->
  MimeType_checkExtension M (pop mimeType (u "image/png"))
    (pop extension (u "png")) = false ->
  construct R M (ImageField_ mimeTypes mimeType extension kw)
  = Raise Core400Exception.
Proof.
  intros H1 H2 H3. unfold construct, new_ImageField.
  now rewrite H1, H2, H3.
Qed.

(** No other declaration raises [Core400Exception]. *)
Lemma declaration_400_only_ImageField (c : call) :
  construct R M c = Raise Core400Exception ->
  exists mimeTypes mimeType extension kw,
    c = ImageField_ mimeTypes mimeType extension kw /\
    MimeType_checkExtension M (pop mimeType (u "image/png"))
      (pop extension (u "png")) = false.
Proof.
  destruct c; unfold construct;
    unfold new_Field, new_BinaryField, new_ImageField, new_BoolField,
      new_ColorField, new_CurrencyField, new_DateField, new_DateTimeField,
      new_DecimalField, new_EmailField, new_EnumField, new_ListField,
      new_IntField, new_SetField, new_StringField, new_PhoneField,
      new_TimeField, new_URLField, BinaryField_init, custom_regex, raise_if;
    intros H.
  3: { destruct (MimeType_checkExtension M (pop mimeType (u "image/png"))
                   (pop extension (u "png"))) eqn:E.
       - repeat match type of H with
                | context [if ?x then _ else _] => destruct x; simpl in H
                end; discriminate.
       - now exists mimeTypes, mimeType, extension, kw. }
  all: repeat match type of H with
              | context [match ?x with _ => _ end] => destruct x; simpl in H
              | context [if ?x then _ else _] => destruct x; simpl in H
              end; discriminate.
Qed.

(** ** [ImageField.convert] *)

(** The extensions [convert] knows, and the format of each. *)
Lemma filetype_of_spec (extension : pystr) :
  filetype_of extension
  = if str_in extension [u "jpg"; u "jpeg"; u "jpe"] then Some JPEG
    else if pystr_eqb extension (u "png") then Some PNG
    else if pystr_eqb extension (u "gif") then Some GIF
    else None.
Proof.
  unfold filetype_of. simpl str_in at 2 3. now rewrite !orb_false_r.
Qed.

Lemma filetype_of_unsupported (extension : pystr) :
  filetype_of extension = None
  <-> str_in extension [u "jpg"; u "jpeg"; u "jpe"; u "png"; u "gif"] = false.
Proof.
  rewrite filetype_of_spec. unfold str_in.
  repeat match goal with
         | |- context [u ?s] =>
             let v := eval vm_compute in (u s) in change (u s) with v
         end.
  cbn [existsb].
  repeat match goal with
         | |- context [pystr_eqb extension ?x] =>
             destruct (pystr_eqb extension x)
         end;
    simpl; intuition congruence.
Qed.

(** C8 -- When the extension of an [ImageField] is none of jpg, jpeg, jpe,
    png, gif, [convert] returns the stream it was given.  When it is one of
    them, [convert] opens the stream with the codec and returns a new stream
    in which the codec has saved the image in the format of the extension:
    JPEG for jpg, jpeg and jpe, PNG for png, GIF for gif.  With a codec that
    writes the format it is asked for, a JPEG stream converted by a field
    of extension png comes back as a PNG stream. *)
Theorem convert_spec (base : Field R) (mimeTypes : list pystr)
    (mimeType extension : pystr) (data : stream) :
  (forall image t out,
     Image_save P image BytesIO t = Return out -> has_format t out = true) ->
  let o := AnImageField base mimeTypes mimeType extension in
  (str_in extension [u "jpg"; u "jpeg"; u "jpe"; u "png"; u "gif"] = false ->
   convert P o data = Return data) /\
  (forall t image out,
     filetype_of extension = Some t ->
     Image_open P data = Return image ->
     Image_save P image BytesIO t = Return out ->
     convert P o data = Return out /\ has_format t out = true) /\
  (extension = u "png" -> has_format JPEG data = true ->
   forall image out,
     Image_open P data = Return image ->
     Image_save P image BytesIO PNG = Return out ->
     convert P o data = Return out /\ has_format PNG out = true) /\
  filetype_of (u "jpg") = Some JPEG /\ filetype_of (u "jpeg") = Some JPEG /\
  filetype_of (u "jpe") = Some JPEG /\ filetype_of (u "png") = Some PNG /\
  filetype_of (u "gif") = Some GIF.
Proof.
  intros Hcodec o. unfold o, convert, ImageField_convert.
  repeat split; try reflexivity.
  - intros H. apply filetype_of_unsupported in H. now rewrite H.
  - rewrite H, H0. simpl. assumption.
  - eapply Hcodec; eassumption.
  - subst extension. change (filetype_of (u "png")) with (Some PNG).
    rewrite H1. simpl. assumption.
  - eapply Hcodec; eassumption.
Qed.

End Properties.

(** * The properties on concrete fields *)

(** ** Instances *)

Lemma identifier_forces_require_and_default_witness :
  require (base_of Examples.id_field) = PyBool true /\
  default (base_of Examples.id_field) = PyNone.
Proof.
  apply (proj1 (@identifier_forces_require_and_default
                  Sample.regex Sample.mimetype (Field_ Examples.id_kw)
                  Examples.id_field eq_refl)).
  reflexivity.
Defined.

Lemma check_of_fields_with_regex_witness :
  check Examples.color (PyStr (u "#ff00aa")) = Return tt /\
  check Examples.color (PyStr (u "red")) = Raise Core400Exception /\
  check Examples.text (PyStr (u "a <b> c")) = Raise Core400Exception /\
  check Examples.text (PyStr (u "red")) = Return tt /\
  check Examples.date (PyStr (u "2020-01-02")) = Raise Core400Exception.
Proof.
  split; [|split; [|split; [|split]]].
  - exact (@check_of_fields_with_regex Sample.regex Examples.color _
             (u "#ff00aa") eq_refl).
  - exact (@check_of_fields_with_regex Sample.regex Examples.color _
             (u "red") eq_refl).
  - exact (@check_of_fields_with_regex Sample.regex Examples.text _
             (u "a <b> c") eq_refl).
  - exact (@check_of_fields_with_regex Sample.regex Examples.text _
             (u "red") eq_refl).
  - exact (@check_of_fields_with_regex Sample.regex Examples.date _
             (u "2020-01-02") eq_refl).
Defined.

Lemma Field_check_on_strings_witness :
  Field_check Examples.plain (PyInt 5) = Return tt /\
  Field_check Examples.color_base (PyStr (u "#ff00aa")) = Return tt /\
  Field_check Examples.color_base (PyStr (u "red")) = Raise Core400Exception.
Proof.
  split; [|split].
  - apply (proj1 (Field_check_on_strings Examples.plain (PyInt 5) [])).
    reflexivity.
  - apply (proj2 (Field_check_on_strings Examples.color_base PyNone
                    (u "#ff00aa")) (HTMLColor Sample.regex)).
    reflexivity.
  - apply (proj2 (Field_check_on_strings Examples.color_base PyNone
                    (u "red")) (HTMLColor Sample.regex)).
    reflexivity.
Defined.



Lemma membership_is_on_bytes_witness :
  EnumField_check Examples.colours_str (PyStr (u "red")) <> Return tt /\
  (SetField_check Examples.colours_str (PyList [PyStr (u "red")]) = Return tt
   <-> PyList [PyStr (u "red")] = PyList []) /\
  (SetField_check Examples.colours_str (PyList []) = Return tt
   <-> PyList [] = PyList []).
Proof.
  split; [|split].
  - apply (proj2 (proj2 (membership_is_on_bytes Examples.colours_str
                           (PyStr (u "red"))))).
    reflexivity.
  - apply (proj2 (proj2 (membership_is_on_bytes Examples.colours_str
                           (PyList [PyStr (u "red")])))).
    reflexivity.
  - apply (proj2 (proj2 (membership_is_on_bytes Examples.colours_str
                           (PyList [])))).
    reflexivity.
Defined.

Lemma ImageField_mismatch_raises_400_witness :
  construct Sample.regex Sample.mimetype
    (ImageField_ None None (Some (u "jpg")) no_kw)
  = Raise Core400Exception.
Proof.
  apply (@ImageField_mismatch_raises_400 Sample.regex Sample.mimetype
           None None (Some (u "jpg")) no_kw); reflexivity.
Defined.

(** The example codec writes the format it is asked for. *)
Lemma Sample_pil_writes_format (image : Image Sample.pil) (t : filetype)
    (out : stream) :
  Image_save Sample.pil image BytesIO t = Return out ->
  has_format t out = true.
Proof. intros H. injection H as <-. destruct t; reflexivity. Defined.

Lemma convert_spec_witness :
  convert Sample.pil
    (AnImageField Examples.plain (image Sample.mimetype) (u "image/bmp")
       (u "bmp")) Examples.jpeg_file
  = Return Examples.jpeg_file /\
  (convert Sample.pil
     (AnImageField Examples.plain (image Sample.mimetype) (u "image/png")
        (u "png")) Examples.jpeg_file
   = Return Examples.png_file /\
   has_format PNG Examples.png_file = true).
Proof.
  split.
  - apply (proj1 (@convert_spec Sample.regex Sample.pil Examples.plain
                    (image Sample.mimetype) (u "image/bmp") (u "bmp")
                    Examples.jpeg_file Sample_pil_writes_format)).
    reflexivity.
  - apply (proj1 (proj2 (proj2
             (@convert_spec Sample.regex Sample.pil Examples.plain
                (image Sample.mimetype) (u "image/png") (u "png")
                Examples.jpeg_file Sample_pil_writes_format)))
             eq_refl eq_refl [x01; x02] Examples.png_file);
      reflexivity.
Defined.

(** ** Where the code departs from the specification *)

(** C1, as worded, fails: [DateField] has a regex, [RFC3339.date], and
    raises on a string that the regex matches. *)
Lemma regex_does_not_decide_check :
  new_DateField Sample.regex no_kw = Return Examples.date /\
  regex_of Examples.date = Some (RFC3339_date Sample.regex) /\
  re_match Sample.regex (RFC3339_date Sample.regex) (u "2020-01-02") = true /\
  check Examples.date (PyStr (u "2020-01-02")) = Raise Core400Exception /\
  ~ regex_decides_check Examples.date.
Proof.
  split; [reflexivity|]. split; [reflexivity|]. split; [reflexivity|].
  split; [reflexivity|].
  intros H.
  destruct (H (RFC3339_date Sample.regex) (u "2020-01-02") eq_refl)
    as [Hacc _].
  specialize (Hacc eq_refl). discriminate Hacc.
Qed.

(** [StringField] accepts a string that its regex does not match and
    raises on one that it matches. *)
Lemma regex_does_not_decide_StringField :
  new_StringField Sample.regex None None no_kw = Return Examples.text /\
  re_match Sample.regex (XSS Sample.regex) (u "red") = false /\
  check Examples.text (PyStr (u "red")) = Return tt /\
  re_match Sample.regex (XSS Sample.regex) (u "a <b> c") = true /\
  check Examples.text (PyStr (u "a <b> c")) = Raise Core400Exception /\
  ~ regex_decides_check Examples.text.
Proof.
  split; [reflexivity|]. split; [reflexivity|]. split; [reflexivity|].
  split; [reflexivity|]. split; [reflexivity|].
  intros H.
  destruct (H (XSS Sample.regex) (u "red") eq_refl) as [_ Hrej].
  specialize (Hrej eq_refl). discriminate Hrej.
Qed.


(** A string that cannot be encoded is not reported as a validation error
    either: on a lone surrogate [EnumField.check] raises
    [UnicodeEncodeError]. *)
Lemma lone_surrogate_escapes_membership_checks :
  ~ In (PyStr [55296]) Examples.colours_str /\
  EnumField_check Examples.colours_str (PyStr [55296])
  = Raise UnicodeEncodeError.
Proof.
  split; [|reflexivity]. intros [H|[H|[]]]; discriminate H.
Qed.

(** C4: the declaration [ImageField(extension="jpg")] raises the
    client-input error. *)
Lemma declaration_raises_400 :
  ~ declaration_never_400 Sample.regex Sample.mimetype.
Proof.
  intros H.
  apply (H (ImageField_ None None (Some (u "jpg")) no_kw)). reflexivity.
Qed.

(** C5, as worded, fails: with a regex, [Field.check] on an integer neither
    returns nor raises [Core400Exception]. *)
Lemma Field_check_not_total :
  regex Examples.color_base = Some (HTMLColor Sample.regex) /\
  Field_check Examples.color_base (PyInt 5) = Raise TypeError /\
  ~ Field_check_total Examples.color_base.
Proof.
  split; [reflexivity|]. split; [reflexivity|].
  intros H. destruct (H (PyInt 5)) as [Hrej _].
  assert (E : Field_check Examples.color_base (PyInt 5)
              = Raise Core400Exception).
  { apply (Hrej (HTMLColor Sample.regex) eq_refl).
    intros [s [Hs _]]. discriminate Hs. }
  discriminate E.
Qed.

(** C10, as worded, fails: [SetField.check] accepts the empty list whatever
    the declared values. *)
Lemma SetField_accepts_empty_list :
  forallb is_str Examples.colours_str = true /\
  SetField_check Examples.colours_str (PyList []) = Return tt /\
  ~ str_values_accept_nothing Examples.colours_str.
Proof.
  split; [reflexivity|]. split; [reflexivity|].
  intros H. destruct (H eq_refl (PyList [])) as [_ Hset].
  apply Hset. reflexivity.
Qed.

(** * Further properties *)

(** ** The UTF-8 encoding *)

(** Checking a property of the numbers below a bound by running it. *)
Lemma below_forallb (f : N -> bool) (n : nat) :
  forallb f (map N.of_nat (seq 0 n)) = true ->
  forall y, y < N.of_nat n -> f y = true.
Proof.
  intros H y Hy. rewrite forallb_forall in H. apply H.
  apply in_map_iff. exists (N.to_nat y). split; [apply N2Nat.id|].
  apply in_seq. lia.
Qed.

Lemma to_N_octet (n : N) : n < 256 -> Byte.to_N (octet n) = n.
Proof.
  intros H. unfold octet. destruct (Byte.of_N n) as [x|] eqn:E.
  - now apply Byte.to_of_N.
  - apply Byte.of_N_None_iff in E. lia.
Qed.

Lemma lor_128 (y : N) : y < 64 -> N.lor 128 y = 128 + y.
Proof.
  intros H. apply N.eqb_eq. revert y H.
  apply (below_forallb (fun y => N.lor 128 y =? 128 + y) 64). reflexivity.
Qed.

Lemma lor_192 (y : N) : y < 32 -> N.lor 192 y = 192 + y.
Proof.
  intros H. apply N.eqb_eq. revert y H.
  apply (below_forallb (fun y => N.lor 192 y =? 192 + y) 32). reflexivity.
Qed.

Lemma lor_224 (y : N) : y < 16 -> N.lor 224 y = 224 + y.
Proof.
  intros H. apply N.eqb_eq. revert y H.
  apply (below_forallb (fun y => N.lor 224 y =? 224 + y) 16). reflexivity.
Qed.

Lemma lor_240 (y : N) : y < 8 -> N.lor 240 y = 240 + y.
Proof.
  intros H. apply N.eqb_eq. revert y H.
  apply (below_forallb (fun y => N.lor 240 y =? 240 + y) 8). reflexivity.
Qed.

Lemma to_N_cont (c k : N) :
  Byte.to_N (cont c k) = 128 + (c / 2 ^ (6 * k)) mod 64.
Proof.
  unfold cont. change 63 with (N.ones 6).
  rewrite N.land_ones, N.shiftr_div_pow2. change (2 ^ 6) with 64.
  assert (H : (c / 2 ^ (6 * k)) mod 64 < 64) by (apply N.mod_lt; lia).
  rewrite lor_128 by assumption. apply to_N_octet. lia.
Qed.

(** The bit operations of the encoder, in arithmetic. *)
Lemma utf8_encode_cp_octets (c : N) :
  option_map (map Byte.to_N) (utf8_encode_cp c) = cp_octets c.
Proof.
  unfold utf8_encode_cp, cp_octets.
  destruct (c <? 128) eqn:E1.
  { apply N.ltb_lt in E1. simpl. rewrite to_N_octet by lia. reflexivity. }
  destruct (c <? 2048) eqn:E2.
  { apply N.ltb_lt in E2. cbn [option_map map].
    rewrite to_N_cont, N.shiftr_div_pow2.
    change (2 ^ 6) with 64. change (2 ^ (6 * 0)) with 1. rewrite N.div_1_r.
    assert (c / 64 < 32) by (apply N.Div0.div_lt_upper_bound; lia).
    rewrite lor_192, to_N_octet by lia. reflexivity. }
  destruct (c <? 65536) eqn:E3.
  { apply N.ltb_lt in E3.
    destruct ((55296 <=? c) && (c <=? 57343)); [reflexivity|].
    cbn [option_map map].
    rewrite !to_N_cont, N.shiftr_div_pow2.
    change (2 ^ 12) with 4096. change (2 ^ (6 * 0)) with 1.
    change (2 ^ (6 * 1)) with 64. rewrite N.div_1_r.
    assert (c / 4096 < 16) by (apply N.Div0.div_lt_upper_bound; lia).
    rewrite lor_224, to_N_octet by lia. reflexivity. }
  destruct (c <? 1114112) eqn:E4; [|reflexivity].
  apply N.ltb_lt in E4. cbn [option_map map].
  rewrite !to_N_cont, N.shiftr_div_pow2.
  change (2 ^ 18) with 262144. change (2 ^ (6 * 0)) with 1.
  change (2 ^ (6 * 1)) with 64. change (2 ^ (6 * 2)) with 4096.
  rewrite N.div_1_r.
  assert (c / 262144 < 8) by (apply N.Div0.div_lt_upper_bound; lia).
  rewrite lor_240, to_N_octet by lia. reflexivity.
Qed.

Lemma some_inj {A : Type} (a b : A) : Some a = Some b -> a = b.
Proof. intros H. now injection H. Qed.

Lemma cons_inj {A : Type} (a b : A) (l l' : list A) :
  a :: l = b :: l' -> a = b /\ l = l'.
Proof. intros H. now injection H. Qed.

Ltac divmod c :=
  pose proof (N.div_mod c 64 ltac:(lia));
  pose proof (N.mod_lt c 64 ltac:(lia));
  pose proof (N.div_mod (c / 64) 64 ltac:(lia));
  pose proof (N.mod_lt (c / 64) 64 ltac:(lia));
  pose proof (N.div_mod (c / 4096) 64 ltac:(lia));
  pose proof (N.mod_lt (c / 4096) 64 ltac:(lia));
  replace (c / 64 / 64) with (c / 4096) in *
    by (rewrite N.Div0.div_div; reflexivity);
  replace (c / 4096 / 64) with (c / 262144) in *
    by (rewrite N.Div0.div_div; reflexivity).

(** Two encodings that start a common sequence of octets encode the same
    code point: the first octet gives the length, the others the bits. *)
Lemma cp_octets_prefix (c1 c2 : N) (n1 n2 r1 r2 : list N) :
  cp_octets c1 = Some n1 -> cp_octets c2 = Some n2 ->
  (n1 ++ r1 = n2 ++ r2)%list -> c1 = c2.
Proof.
  unfold cp_octets. intros H1 H2 E.
  divmod c1. divmod c2.
  repeat match type of H1 with
         | context [if ?x then _ else _] => destruct x eqn:?
         end; try discriminate; apply some_inj in H1; subst n1;
  repeat match type of H2 with
         | context [if ?x then _ else _] => destruct x eqn:?
         end; try discriminate; apply some_inj in H2; subst n2;
  repeat match goal with
         | H : (_ <? _) = true |- _ => apply N.ltb_lt in H
         | H : (_ <? _) = false |- _ => apply N.ltb_ge in H
         end;
  cbn [app] in E;
  repeat match type of E with
         | _ :: _ = _ :: _ => apply cons_inj in E as [? E]
         end; lia.
Qed.

Lemma utf8_encode_cp_prefix (c1 c2 : N) (b1 b2 r1 r2 : pybytes) :
  utf8_encode_cp c1 = Some b1 -> utf8_encode_cp c2 = Some b2 ->
  (b1 ++ r1 = b2 ++ r2)%list -> c1 = c2.
Proof.
  intros H1 H2 E.
  pose proof (utf8_encode_cp_octets c1) as O1. rewrite H1 in O1.
  pose proof (utf8_encode_cp_octets c2) as O2. rewrite H2 in O2.
  apply (f_equal (map Byte.to_N)) in E. rewrite !map_app in E.
  exact (cp_octets_prefix _ _ _ _ (eq_sym O1) (eq_sym O2) E).
Qed.

Lemma utf8_encode_cp_not_empty (c : N) : utf8_encode_cp c <> Some [].
Proof.
  unfold utf8_encode_cp.
  repeat match goal with
         | |- context [if ?x then _ else _] => destruct x
         end; discriminate.
Qed.

(** Distinct strings have distinct encodings. *)
Lemma utf8_encode_inj (s1 s2 : pystr) (b : pybytes) :
  utf8_encode s1 = Some b -> utf8_encode s2 = Some b -> s1 = s2.
Proof.
  revert s2 b. induction s1 as [|c1 r1 IH]; intros [|c2 r2] b H1 H2;
    simpl in H1, H2.
  - reflexivity.
  - apply some_inj in H1. subst b.
    destruct (utf8_encode_cp c2) as [x|] eqn:E; [|discriminate].
    destruct (utf8_encode r2); [|discriminate].
    apply some_inj in H2. apply app_eq_nil in H2 as [-> _].
    now apply utf8_encode_cp_not_empty in E.
  - apply some_inj in H2. subst b.
    destruct (utf8_encode_cp c1) as [x|] eqn:E; [|discriminate].
    destruct (utf8_encode r1); [|discriminate].
    apply some_inj in H1. apply app_eq_nil in H1 as [-> _].
    now apply utf8_encode_cp_not_empty in E.
  - destruct (utf8_encode_cp c1) as [x1|] eqn:E1; [|discriminate].
    destruct (utf8_encode r1) as [y1|] eqn:F1; [|discriminate].
    destruct (utf8_encode_cp c2) as [x2|] eqn:E2; [|discriminate].
    destruct (utf8_encode r2) as [y2|] eqn:F2; [|discriminate].
    apply some_inj in H1. apply some_inj in H2. subst b.
    assert (c2 = c1) by (eapply utf8_encode_cp_prefix; eassumption).
    subst c2. rewrite E1 in E2. apply some_inj in E2. subst x2.
    apply app_inv_head in H2. subst y2. f_equal. exact (IH _ _ eq_refl F2).
Qed.

Lemma is_surrogate_spec (c : N) :
  is_surrogate c = true <-> 55296 <= c <= 57343.
Proof.
  unfold is_surrogate. rewrite andb_true_iff, !N.leb_le. reflexivity.
Qed.

Lemma is_code_point_spec (c : N) : is_code_point c = true <-> c < 1114112.
Proof. apply N.ltb_lt. Qed.

Lemma utf8_encode_cp_None (c : N) :
  utf8_encode_cp c = None
  <-> is_surrogate c = true \/ is_code_point c = false.
Proof.
  rewrite is_surrogate_spec.
  assert (P : is_code_point c = false <-> 1114112 <= c) by apply N.ltb_ge.
  rewrite P. clear P.
  unfold utf8_encode_cp. fold (is_surrogate c).
  destruct (N.ltb_spec c 128); [split; [discriminate | lia]|].
  destruct (N.ltb_spec c 2048); [split; [discriminate | lia]|].
  destruct (N.ltb_spec c 65536).
  - destruct (is_surrogate c) eqn:E.
    + apply is_surrogate_spec in E. tauto.
    + split; [discriminate|]. intros [S|S]; [|lia].
      apply is_surrogate_spec in S. congruence.
  - destruct (N.ltb_spec c 1114112); [split; [discriminate | lia]|].
    split; [intros _; now right | reflexivity].
Qed.

(** [str.encode] fails exactly on the strings that hold a surrogate (or a
    number that is no code point). *)
Lemma utf8_encode_None (s : pystr) :
  utf8_encode s = None
  <-> Exists (fun c => is_surrogate c = true \/ is_code_point c = false) s.
Proof.
  induction s as [|c r IH]; simpl.
  - split; [discriminate | intros H; inversion H].
  - destruct (utf8_encode_cp c) as [x|] eqn:E.
    + destruct (utf8_encode r) as [y|].
      * split; [discriminate|]. intros H. inversion H as [? ? Hc|? ? Hr].
        -- apply utf8_encode_cp_None in Hc. congruence.
        -- apply IH in Hr. discriminate.
      * split; [|reflexivity]. intros _. right. now apply IH.
    + split; [|reflexivity]. intros _. left.
      now apply utf8_encode_cp_None.
Qed.

(** The encoding of an ASCII string has the same octets. *)
Lemma utf8_encode_ascii (s : pystr) :
  Forall (fun c => c < 128) s -> utf8_encode s = Some (map octet s).
Proof.
  induction 1 as [|c r Hc Hr IH]; simpl; [reflexivity|].
  rewrite IH. unfold utf8_encode_cp.
  apply N.ltb_lt in Hc. now rewrite Hc.
Qed.

Lemma PyStr_inj (s1 s2 : pystr) : PyStr s1 = PyStr s2 -> s1 = s2.
Proof. intros H. now injection H. Qed.

Lemma return_inj {A : Type} (a b : A) : Return a = Return b -> a = b.
Proof. intros H. now injection H. Qed.

Lemma raise_inj {A : Type} (e1 e2 : exn) :
  @Raise A e1 = Raise e2 -> e1 = e2.
Proof. intros H. now injection H. Qed.

Section More.

Variable R : RegexLib.
Variable M : MimeTypeLib.
Variable P : ImageLib.

(** ** Declarations *)

(** X1 -- An [ImageField] that has been declared is consistent: its list
    of mime types is known to the registry, its output mime type belongs to
    the list and matches its output extension; so its own [check] accepts
    its output mime type and extension, and accepts a pair exactly when the
    mime type is in the list and the extension matches it. *)
Theorem ImageField_declared_consistent (mimeTypes : option (list pystr))
    (mimeType extension : option pystr) (kw : FieldArgs) (o : FieldObj R)
    (m e : pystr) :
  new_ImageField R M mimeTypes mimeType extension kw = Return o ->
  o = AnImageField (Field_init R None kw) (pop mimeTypes (image M))
        (pop mimeType (u "image/png")) (pop extension (u "png")) /\
  MimeType_check M (pop mimeTypes (image M)) = true /\
  str_in (pop mimeType (u "image/png")) (pop mimeTypes (image M)) = true /\
  MimeType_checkExtension M (pop mimeType (u "image/png"))
    (pop extension (u "png")) = true /\
  check2 M o (pop mimeType (u "image/png")) (pop extension (u "png"))
  = Return tt /\
  check2 M o m e
  = if str_in m (pop mimeTypes (image M)) && MimeType_checkExtension M m e
    then Return tt else Raise Core400Exception.
Proof.
  unfold new_ImageField, BinaryField_init. cbn [pop].
  destruct (MimeType_check M (pop mimeTypes (image M))) eqn:E1;
    [|discriminate].
  destruct (str_in (pop mimeType (u "image/png"))
              (pop mimeTypes (image M))) eqn:E2; [|discriminate].
  destruct (MimeType_checkExtension M (pop mimeType (u "image/png"))
              (pop extension (u "png"))) eqn:E3; [|discriminate].
  cbn [raise_if negb bind fst snd]. intros H. apply return_inj in H.
  subst o. cbn [check2].
  rewrite !BinaryField_check_spec, E2, E3. repeat split.
Qed.

(** X2 -- A [BinaryField] is declared only with mime types the registry
    knows, by default the open formats; its [check] then accepts a mime
    type and an extension exactly when the mime type is one of them and the
    registry associates the extension with it, and raises
    [Core400Exception] otherwise. *)
Theorem BinaryField_declared_check (mimeTypes : option (list pystr))
    (kw : FieldArgs) (o : FieldObj R) (m e : pystr) :
  new_BinaryField R M mimeTypes kw = Return o ->
  o = ABinaryField (Field_init R None kw) (pop mimeTypes (openformat M)) /\
  MimeType_check M (pop mimeTypes (openformat M)) = true /\
  check2 M o m e
  = if str_in m (pop mimeTypes (openformat M))
       && MimeType_checkExtension M m e
    then Return tt else Raise Core400Exception.
Proof.
  unfold new_BinaryField, BinaryField_init. cbn [pop].
  destruct (MimeType_check M (pop mimeTypes (openformat M))) eqn:E1;
    [|discriminate].
  cbn [raise_if negb bind fst snd]. intros H. apply return_inj in H.
  subst o. cbn [check2]. rewrite BinaryField_check_spec. repeat split.
Qed.

(** X3 -- Declaration errors and their order.  [BinaryField] raises
    [Core500Exception] on a list of mime types unknown to the registry.
    [ImageField] raises [Core500Exception] on such a list, whatever the
    output mime type and extension; with a known list it raises
    [Core500Exception] on an output mime type outside the list, whatever
    the extension; only then does a mismatched extension raise
    [Core400Exception].  [EnumField] and [SetField] raise
    [Core500Exception] when [values] is missing or [None].  [StringField]
    and [ListField] raise [re.error] when the regex given does not
    compile. *)
Theorem declaration_errors_in_order (kw : FieldArgs)
    (mimeTypes : option (list pystr)) (mimeType extension : option pystr)
    (length : option pyval) (rx : pystr) :
  (MimeType_check M (pop mimeTypes (openformat M)) = false ->
   construct R M (BinaryField_ mimeTypes kw) = Raise Core500Exception) /\
  (MimeType_check M (pop mimeTypes (image M)) = false ->
   construct R M (ImageField_ mimeTypes mimeType extension kw)
   = Raise Core500Exception) /\
  (MimeType_check M (pop mimeTypes (image M)) = true ->
   str_in (pop mimeType (u "image/png")) (pop mimeTypes (image M)) = false ->
   construct R M (ImageField_ mimeTypes mimeType extension kw)
   = Raise Core500Exception) /\
  (MimeType_check M (pop mimeTypes (image M)) = true ->
   str_in (pop mimeType (u "image/png")) (pop mimeTypes (image M)) = true ->
   MimeType_checkExtension M (pop mimeType (u "image/png"))
     (pop extension (u "png")) = false ->
   construct R M (ImageField_ mimeTypes mimeType extension kw)
   = Raise Core400Exception) /\
  construct R M (EnumField_ None kw) = Raise Core500Exception /\
  construct R M (SetField_ None kw) = Raise Core500Exception /\
  (re_compile R rx = None ->
   construct R M (StringField_ length (Some rx) kw) = Raise re_error /\
   construct R M (ListField_ (Some rx) kw) = Raise re_error).
Proof.
  unfold construct, new_BinaryField, new_ImageField, new_EnumField,
    new_SetField, new_StringField, new_ListField, BinaryField_init,
    custom_regex.
  split; [|split; [|split; [|split; [|split; [|split]]]]];
    try reflexivity.
  - intros H. now rewrite H.
  - intros H. now rewrite H.
  - intros H1 H2. now rewrite H1, H2.
  - intros H1 H2 H3. now rewrite H1, H2, H3.
  - intros H. rewrite H. split; reflexivity.
Qed.

(** X4 -- [DateField.check], [DateTimeField.check] and [TimeField.check]
    accept exactly the objects whose class is [date], [datetime] and [time]
    and raise [Core400Exception] on everything else.  The class must be the
    very one: [DateField.check] raises on a [datetime] object, which is an
    instance of [date], and [CurrencyField.check] and [DecimalField.check]
    raise on a boolean, which is an instance of [int]. *)
Theorem exact_class_checks (data : pyval) :
  DateField_check data
    = (if is_date data then Return tt else Raise Core400Exception) /\
  DateTimeField_check data
    = (if is_datetime data then Return tt else Raise Core400Exception) /\
  TimeField_check data
    = (if is_time data then Return tt else Raise Core400Exception) /\
  (is_datetime data = true ->
   isinstance data TDate = true /\
   DateField_check data = Raise Core400Exception) /\
  (is_boolean data = true ->
   isinstance data TInt = true /\
   CurrencyField_check data = Raise Core400Exception /\
   DecimalField_check data = Raise Core400Exception).
Proof.
  split; [|split; [|split; [|split]]];
    destruct data; try reflexivity; try discriminate; intros _;
    repeat split.
Qed.

(** X5 -- [Field.__init__] tests the truth value of [identifier], not its
    being [True]: with any true value (1, a non-empty string...) [require]
    becomes [True] and [default] becomes [None]; with any false value
    ([None], 0, an empty string, an empty tuple...) both are kept as
    passed.  The [identifier] attribute itself holds the value passed.
    This holds for every class of field. *)
Theorem identifier_truth_value (c : call) (o : FieldObj R) :
  construct R M c = Return o ->
  identifier (base_of o) = kw_identifier (kw_of c) /\
  (truthy (kw_identifier (kw_of c)) = true ->
   require (base_of o) = PyBool true /\ default (base_of o) = PyNone) /\
  (truthy (kw_identifier (kw_of c)) = false ->
   require (base_of o) = kw_require (kw_of c) /\
   default (base_of o) = kw_default (kw_of c)).
Proof.
  intros H. destruct (construct_base M c H) as [rx ->].
  split; [reflexivity|]. split.
  - apply Field_init_identifier.
  - apply Field_init_plain.
Qed.

(** X6 -- Whatever [identifier] is, a declared field of any class holds
    the other arguments as they were passed; in particular an identifier is
    not made unique or indexed by the declaration. *)
Theorem other_attributes_kept (c : call) (o : FieldObj R) :
  construct R M c = Return o ->
  let f := base_of o in
  let kw := kw_of c in
  fieldName f = kw_fieldName kw /\ label f = kw_label kw /\
  help f = kw_help kw /\ unique f = kw_unique kw /\ copy f = kw_copy kw /\
  compute f = kw_compute kw /\ constraints f = kw_constraints kw /\
  index f = kw_index kw /\ readwrite f = kw_readwrite kw /\
  readonly f = kw_readonly kw /\ backendType f = kw_backendType kw.
Proof.
  intros H. destruct (construct_base M c H) as [rx E]. simpl. rewrite E.
  repeat split.
Qed.

(** The regex of a declared field: the one of its class, [XSS] or the
    compiled argument for [StringField] and [ListField]. *)
Lemma declared_regex (c : call) (o : FieldObj R) :
  construct R M c = Return o ->
  match o with
  | AColorField _ _ => regex_of o = Some (HTMLColor R)
  | ADateField _ => regex_of o = Some (RFC3339_date R)
  | ADateTimeField _ => regex_of o = Some (RFC3339_datetime R)
  | ATimeField _ => regex_of o = Some (RFC3339_time R)
  | AnEmailField _ _ => regex_of o = Some (MAIL R)
  | APhoneField _ _ => regex_of o = Some (PHONE R)
  | AURLField _ _ => regex_of o = Some (URL R)
  | AStringField _ _ | AListField _ => exists p, regex_of o = Some p
  | _ => regex_of o = None
  end.
Proof.
  destruct c; unfold construct;
    unfold new_Field, new_BinaryField, new_ImageField, new_BoolField,
      new_ColorField, new_CurrencyField, new_DateField, new_DateTimeField,
      new_DecimalField, new_EmailField, new_EnumField, new_ListField,
      new_IntField, new_SetField, new_StringField, new_PhoneField,
      new_TimeField, new_URLField, BinaryField_init, custom_regex, raise_if;
    cbn [pop]; intros H;
    repeat match type of H with
           | context [match ?x with _ => _ end] =>
               destruct x; cbn [negb bind fst snd] in H
           | context [if ?x then _ else _] =>
               destruct x; cbn [negb bind fst snd] in H
           end;
    try discriminate H; apply return_inj in H; subst o;
    try reflexivity; eexists; reflexivity.
Qed.

(** X7 -- On a string that can be encoded, the [check] of a declared field
    either returns or raises [Core400Exception]: no other exception comes
    out of the validation of a string ([BinaryField] and [ImageField],
    whose [check] takes a mime type and an extension, set apart). *)
Theorem declared_check_on_strings (c : call) (o : FieldObj R) (s : pystr) :
  construct R M c = Return o ->
  one_argument o = true ->
  utf8_encode s <> None ->
  check o (PyStr s) = Return tt \/
  check o (PyStr s) = Raise Core400Exception.
Proof.
  intros H Hone Henc. pose proof (declared_regex _ H) as Hrx.
  destruct (utf8_encode s) as [b|] eqn:E; [|congruence].
  destruct o; try discriminate Hone; cbn [check];
    try (right; reflexivity).
  - rewrite (Field_check_no_regex _ _ Hrx). now left.
  - rewrite (Field_check_str _ _ Hrx). destruct (re_match R _ s); auto.
  - rewrite (Field_check_str _ _ Hrx). destruct (re_match R _ s); auto.
  - unfold EnumField_check. cbn [type_of pytype_eqb py_encode_utf8].
    rewrite E. cbn [bind]. unfold raise_if.
    destruct (bytes_in b values); auto.
  - destruct Hrx as [p Hp]. rewrite (StringField_check_str _ _ Hp).
    destruct (re_match R p s); auto.
  - rewrite (Field_check_str _ _ Hrx). destruct (re_match R _ s); auto.
  - rewrite (Field_check_str _ _ Hrx). destruct (re_match R _ s); auto.
Qed.

(** ** Lists *)

Lemma for_each_app {A : Type} (f : A -> result unit) (l1 l2 : list A) :
  for_each f (l1 ++ l2) = (for_each f l1 ;;; for_each f l2).
Proof.
  induction l1 as [|x r IH]; simpl; [reflexivity|].
  destruct (f x) as [[]|e]; simpl; [exact IH | reflexivity].
Qed.

(** A loop raises what its first failing iteration raises. *)
Lemma for_each_first_failure {A : Type} (f : A -> result unit)
    (pre post : list A) (x : A) (e : exn) :
  Forall (fun y => f y = Return tt) pre -> f x = Raise e ->
  for_each f (pre ++ x :: post) = Raise e.
Proof.
  intros Hpre Hx. rewrite for_each_app.
  apply for_each_ok in Hpre. rewrite Hpre. simpl. now rewrite Hx.
Qed.

(** One iteration of the loop of [ListField.check]. *)
Lemma List_body_ok (self : Field R) (p : Pattern R) (val : pyval) :
  regex self = Some p ->
  (m <- regex_match self val ;; raise_if m Core400Exception) = Return tt
  <-> exists s, val = PyStr s /\ re_match R p s = false.
Proof.
  unfold regex_match. intros ->. destruct val; simpl;
    try (split; [discriminate | intros [s [E _]]; discriminate E]).
  destruct (re_match R p s) eqn:E; simpl; split; try discriminate.
  - intros [s' [Hs Hm]]. apply PyStr_inj in Hs. subst s'. congruence.
  - intros _. now exists s.
  - reflexivity.
Qed.

(** X8 -- [ListField.check] goes through the list in order and stops at the
    first element that is not a string the regex leaves unmatched: it
    returns (in particular on the empty list) exactly when every element is
    a string that the regex does not match; it raises [Core400Exception]
    when the first other element is a string the regex matches, and
    [TypeError] when it is not a string, whatever follows it. *)
Theorem ListField_check_outcome (self : Field R) (p : Pattern R)
    (pre : list pystr) (v : pyval) (post l : list pyval) :
  regex self = Some p ->
  (ListField_check self (PyList l) = Return tt
   <-> Forall (fun x => exists s, x = PyStr s /\ re_match R p s = false) l) /\
  ListField_check self (PyList []) = Return tt /\
  (existsb (re_match R p) pre = false ->
   (forall s, v = PyStr s -> re_match R p s = true ->
      ListField_check self (PyList (map PyStr pre ++ v :: post))
      = Raise Core400Exception) /\
   (is_str v = false ->
    ListField_check self (PyList (map PyStr pre ++ v :: post))
    = Raise TypeError)).
Proof.
  intros Hp. split; [|split; [reflexivity|]].
  - unfold ListField_check. cbn [type_of pytype_eqb negb elements bind].
    rewrite for_each_ok. split; intros H; eapply Forall_impl; try exact H;
      intros x Hx; now apply (List_body_ok _ _ Hp).
  - intros Hpre. split.
    + intros s -> Hs. eapply ListField_check_first_match; eassumption.
    + intros Hv. unfold ListField_check.
      cbn [type_of pytype_eqb negb elements bind].
      apply for_each_first_failure.
      * apply Forall_forall. intros x Hx. apply in_map_iff in Hx.
        destruct Hx as [s [<- Hs]]. apply (List_body_ok _ _ Hp).
        exists s. split; [reflexivity|].
        destruct (re_match R p s) eqn:E; [|reflexivity].
        assert (existsb (re_match R p) pre = true)
          by (apply existsb_exists; now exists s).
        congruence.
      * unfold regex_match. rewrite Hp. destruct v; try reflexivity.
        discriminate Hv.
Qed.

(** X9 -- [SetField.check] goes through the list in order; at the first
    element whose encoding is not among the declared values it raises
    [AttributeError] if the element is not a string, [UnicodeEncodeError]
    if it is a string that cannot be encoded, and [Core400Exception]
    otherwise, whatever follows it. *)
Theorem SetField_check_first_failure (values pre post : list pyval)
    (v : pyval) :
  forallb (encoded_in values) pre = true ->
  encoded_in values v = false ->
  SetField_check values (PyList (pre ++ v :: post))
  = if is_str v
    then if encodable v then Raise Core400Exception
         else Raise UnicodeEncodeError
    else Raise AttributeError.
Proof.
  intros Hpre Hv. rewrite SetField_check_list.
  assert (Hp : Forall (fun y => Set_body values y = Return tt) pre).
  { rewrite forallb_forall in Hpre. apply Forall_forall. intros y Hy.
    now apply Set_body_ok, Hpre. }
  destruct (encodable v) eqn:E.
  - assert (is_str v = true) as ->.
    { apply encodable_spec in E as [b [s [-> _]]]. reflexivity. }
    apply for_each_first_failure; [assumption|].
    rewrite Set_body_encodable by assumption. now rewrite Hv.
  - destruct v; cbn [is_str type_of pytype_eqb];
      try (apply for_each_first_failure; [assumption | reflexivity]).
    apply for_each_first_failure; [assumption|].
    unfold encodable, py_encode_utf8 in E. unfold Set_body, py_encode_utf8.
    destruct (utf8_encode s); [discriminate | reflexivity].
Qed.

(** X10 -- [SetField.check] accepts a list exactly when [EnumField.check],
    with the same declared values, accepts each of its elements; on a list
    of one element that is not itself a list the two methods behave alike,
    exceptions included. *)
Theorem SetField_is_EnumField_on_elements (values l : list pyval)
    (v : pyval) :
  (SetField_check values (PyList l) = Return tt
   <-> Forall (fun x => EnumField_check values x = Return tt) l) /\
  (type_of v <> TList ->
   SetField_check values (PyList [v]) = EnumField_check values v).
Proof.
  split.
  - rewrite SetField_check_list, for_each_ok.
    split; intros H; eapply Forall_impl; try exact H; intros x Hx.
    + now apply EnumField_check_ok, Set_body_ok.
    + now apply Set_body_ok, EnumField_check_ok.
  - intros Hv. apply pytype_eqb_neq in Hv. unfold EnumField_check.
    rewrite Hv, SetField_check_list. unfold Set_body. simpl.
    destruct (py_encode_utf8 v) as [b|e]; simpl; [|reflexivity].
    now destruct (raise_if (negb (bytes_in b values)) Core400Exception)
      as [[]|].
Qed.

(** X11 -- [ListField.check] accepts a list exactly when
    [StringField.check], with the same regex, accepts each of its elements;
    on a list of one element the two methods behave alike, exceptions
    included. *)
Theorem ListField_is_StringField_on_elements (self : Field R)
    (l : list pyval) (v : pyval) :
  (ListField_check self (PyList l) = Return tt
   <-> Forall (fun x => StringField_check self x = Return tt) l) /\
  ListField_check self (PyList [v]) = StringField_check self v.
Proof.
  split.
  - unfold ListField_check. cbn [type_of pytype_eqb negb elements bind].
    rewrite for_each_ok. reflexivity.
  - unfold ListField_check, StringField_check.
    cbn [type_of pytype_eqb negb elements bind for_each].
    destruct (regex_match self v) as [m|e]; simpl; [|reflexivity].
    now destruct (raise_if m Core400Exception) as [[]|].
Qed.

(** X12 -- What [SetField.check] accepts depends only on which elements
    occur: a list made of elements of an accepted list, in any order and
    with any repetition, is accepted (a "set" may repeat a value), and it
    stays accepted when values are added to the declaration. *)
Theorem SetField_check_incl (values values' l l' : list pyval) :
  SetField_check values (PyList l) = Return tt ->
  incl l' l -> incl values values' ->
  SetField_check values' (PyList l') = Return tt.
Proof.
  rewrite !SetField_check_list, !for_each_ok, !Forall_forall.
  intros H Hl Hv x Hx. apply Set_body_ok, encoded_in_spec.
  specialize (H x (Hl x Hx)). apply Set_body_ok, encoded_in_spec in H.
  destruct H as [b [Hb Hin]]. exists b. split; [assumption|].
  now apply Hv.
Qed.

(** ** Strings and their encoding *)

(** X13 -- For a string of ASCII characters the encoding has the same
    octets: [EnumField.check] returns exactly when the [bytes] object with
    these octets is among the declared values, and raises
    [Core400Exception] otherwise. *)
Theorem EnumField_check_ascii (values : list pyval) (s : pystr) :
  Forall (fun c => c < 128) s ->
  (EnumField_check values (PyStr s) = Return tt
   <-> In (PyBytes (map octet s)) values) /\
  (~ In (PyBytes (map octet s)) values ->
   EnumField_check values (PyStr s) = Raise Core400Exception).
Proof.
  intros H. apply utf8_encode_ascii in H.
  unfold EnumField_check. cbn [type_of pytype_eqb py_encode_utf8].
  rewrite H. cbn [bind]. unfold raise_if.
  destruct (bytes_in (map octet s) values) eqn:E; simpl.
  - apply bytes_in_spec in E. split; [tauto | contradiction].
  - split; [|reflexivity]. split; [discriminate|].
    intros Hin. apply bytes_in_spec in Hin. congruence.
Qed.

(** X14 -- On a string, [EnumField.check] raises [UnicodeEncodeError]
    exactly when the string holds a surrogate code point (U+D800 to
    U+DFFF), whatever the declared values; [SetField.check] does so when
    such a string is the first element that is not accepted. *)
Theorem surrogates_raise_UnicodeEncodeError (values : list pyval)
    (s : pystr) :
  forallb is_code_point s = true ->
  (EnumField_check values (PyStr s) = Raise UnicodeEncodeError
   <-> existsb is_surrogate s = true) /\
  (existsb is_surrogate s = true ->
   forall pre post, forallb (encoded_in values) pre = true ->
     SetField_check values (PyList (pre ++ PyStr s :: post))
     = Raise UnicodeEncodeError).
Proof.
  intros Hcp.
  assert (Hnone : utf8_encode s = None <-> existsb is_surrogate s = true).
  { rewrite utf8_encode_None, existsb_exists, Exists_exists.
    rewrite forallb_forall in Hcp.
    split; intros [c [Hin Hc]]; exists c; split; try assumption.
    - destruct Hc as [Hc|Hc]; [assumption|]. rewrite (Hcp c Hin) in Hc.
      discriminate.
    - now left. }
  split.
  - rewrite <- Hnone. unfold EnumField_check.
    cbn [type_of pytype_eqb py_encode_utf8].
    destruct (utf8_encode s) as [b|]; cbn [bind].
    + unfold raise_if. destruct (bytes_in b values); simpl;
        split; discriminate.
    + split; reflexivity.
  - intros Hs pre post Hpre. apply Hnone in Hs.
    rewrite SetField_check_list. apply for_each_first_failure.
    + rewrite forallb_forall in Hpre. apply Forall_forall. intros y Hy.
      now apply Set_body_ok, Hpre.
    + unfold Set_body, py_encode_utf8. now rewrite Hs.
Qed.

(** X15 -- When the declared values of an [EnumField] are the encodings of
    a list of strings, [check] accepts a string exactly when it is one of
    these strings: two strings never share an encoding. *)
Theorem EnumField_check_exact (allowed : list pystr) (values : list pyval)
    (s : pystr) :
  Forall2 (fun a v => exists b, utf8_encode a = Some b /\ v = PyBytes b)
    allowed values ->
  (EnumField_check values (PyStr s) = Return tt <-> In s allowed).
Proof.
  intros Hall. rewrite EnumField_check_ok, encoded_in_spec. split.
  - intros [b [[s' [Hs Hb]] Hin]]. apply PyStr_inj in Hs. subst s'.
    induction Hall as [|a v la lv [b' [Ha Hv]] _ IH]; [contradiction|].
    destruct Hin as [Hin|Hin].
    + left. subst v. injection Hin as ->.
      eapply utf8_encode_inj; eassumption.
    + right. now apply IH.
  - intros Hin.
    induction Hall as [|a v la lv [b' [Ha Hv]] _ IH]; [contradiction|].
    destruct Hin as [->|Hin].
    + exists b'. split; [now exists s | left; assumption].
    + destruct (IH Hin) as [b [Hb Hv']]. exists b.
      split; [assumption | right; assumption].
Qed.

(** X16 -- With a regex, no method reports a value that is not a string as
    a validation error: [Field.check] and [StringField.check] raise
    [TypeError] on it, [ListField.check] raises [TypeError] on a list that
    starts with it, [EnumField.check] raises [AttributeError] on it unless
    it is a list, and [SetField.check] raises [AttributeError] on a list
    that starts with it. *)
Theorem not_a_string_errors (self : Field R) (p : Pattern R)
    (values rest : list pyval) (data : pyval) :
  regex self = Some p ->
  is_str data = false ->
  Field_check self data = Raise TypeError /\
  StringField_check self data = Raise TypeError /\
  ListField_check self (PyList (data :: rest)) = Raise TypeError /\
  (type_of data <> TList ->
   EnumField_check values data = Raise AttributeError) /\
  SetField_check values (PyList (data :: rest)) = Raise AttributeError.
Proof.
  intros Hp Hd.
  split; [now apply (Field_check_not_str _ _ Hp)|].
  unfold StringField_check, ListField_check, regex_match. rewrite Hp.
  destruct data; try discriminate Hd;
    (split; [reflexivity|]); (split; [reflexivity|]);
    (split; [|reflexivity]); intros Hl; try reflexivity.
  now contradiction Hl.
Qed.

(** ** [ImageField.convert] and the codec *)

(** X17 -- With a supported extension, [convert] fails as the codec does:
    it raises what [Image.open] raises on the stream, and else returns or
    raises what [save] does on a new stream.  With an unsupported extension
    the codec is not used: the result is the stream given, with any codec,
    even when the stream is no image. *)
Theorem convert_and_codec (P' : ImageLib) (base : Field R)
    (mimeTypes : list pystr) (mimeType extension : pystr) (data : stream)
    (t : filetype) :
  let o := AnImageField base mimeTypes mimeType extension in
  (filetype_of extension = Some t ->
   (forall e, Image_open P data = Raise e -> convert P o data = Raise e) /\
   (forall image, Image_open P data = Return image ->
      convert P o data = Image_save P image BytesIO t)) /\
  (filetype_of extension = None ->
   convert P o data = Return data /\ convert P' o data = Return data).
Proof.
  intros o. unfold o, convert, ImageField_convert. split.
  - intros ->. split.
    + intros e ->. reflexivity.
    + intros image ->. reflexivity.
  - intros ->. split; reflexivity.
Qed.

(** ** Keywords that are not parameters *)



End More.

(** ** Instances of the further properties *)

Lemma ImageField_declared_consistent_witness :
  check2 Sample.mimetype MoreExamples.picture (u "image/png") (u "png")
  = Return tt /\
  check2 Sample.mimetype MoreExamples.picture (u "image/gif") (u "jpg")
  = Raise Core400Exception.
Proof.
  split.
  - exact (proj1 (proj2 (proj2 (proj2 (proj2
             (@ImageField_declared_consistent Sample.regex Sample.mimetype
                None None None no_kw MoreExamples.picture [] []
                eq_refl)))))).
  - exact (proj2 (proj2 (proj2 (proj2 (proj2
             (@ImageField_declared_consistent Sample.regex Sample.mimetype
                None None None no_kw MoreExamples.picture
                (u "image/gif") (u "jpg") eq_refl)))))).
Defined.

Lemma BinaryField_declared_check_witness :
  check2 Sample.mimetype
    (ABinaryField (Field_init Sample.regex None no_kw)
       [u "application/pdf"]) (u "application/pdf") (u "pdf") = Return tt /\
  check2 Sample.mimetype
    (ABinaryField (Field_init Sample.regex None no_kw)
       [u "application/pdf"]) (u "text/plain") (u "txt")
  = Raise Core400Exception.
Proof.
  split.
  - exact (proj2 (proj2
             (@BinaryField_declared_check Sample.regex Sample.mimetype
                (Some [u "application/pdf"]) no_kw _
                (u "application/pdf") (u "pdf") eq_refl))).
  - exact (proj2 (proj2
             (@BinaryField_declared_check Sample.regex Sample.mimetype
                (Some [u "application/pdf"]) no_kw _
                (u "text/plain") (u "txt") eq_refl))).
Defined.

Lemma declaration_errors_in_order_witness :
  construct Sample.regex Sample.mimetype
    (ImageField_ (Some [u "image/tiff"]) None (Some (u "jpg")) no_kw)
  = Raise Core500Exception /\
  construct Sample.regex Sample.mimetype
    (ImageField_ (Some [u "image/gif"]) None (Some (u "jpg")) no_kw)
  = Raise Core500Exception /\
  construct Sample.regex Sample.mimetype
    (StringField_ None (Some (u "(")) no_kw)
  = Raise re_error.
Proof.
  split; [|split].
  - apply (proj1 (proj2 (@declaration_errors_in_order Sample.regex
             Sample.mimetype no_kw (Some [u "image/tiff"]) None
             (Some (u "jpg")) None []))).
    reflexivity.
  - apply (proj1 (proj2 (proj2 (@declaration_errors_in_order Sample.regex
             Sample.mimetype no_kw (Some [u "image/gif"]) None
             (Some (u "jpg")) None [])))); reflexivity.
  - apply (proj2 (proj2 (proj2 (proj2 (proj2 (proj2
             (@declaration_errors_in_order Sample.regex Sample.mimetype
                no_kw None None None None (u "("))))))) eq_refl).
Defined.

Lemma exact_class_checks_witness :
  (isinstance (PyDateTime 2020 1 2 3 4 5 0) TDate = true /\
   DateField_check (PyDateTime 2020 1 2 3 4 5 0) = Raise Core400Exception) /\
  (isinstance (PyBool true) TInt = true /\
   CurrencyField_check (PyBool true) = Raise Core400Exception /\
   DecimalField_check (PyBool true) = Raise Core400Exception).
Proof.
  split.
  - exact (proj1 (proj2 (proj2 (proj2
             (exact_class_checks (PyDateTime 2020 1 2 3 4 5 0))))) eq_refl).
  - exact (proj2 (proj2 (proj2 (proj2
             (exact_class_checks (PyBool true))))) eq_refl).
Defined.

Lemma identifier_truth_value_witness :
  (identifier (base_of MoreExamples.uid) = PyInt 1 /\
   require (base_of MoreExamples.uid) = PyBool true /\
   default (base_of MoreExamples.uid) = PyNone) /\
  (identifier (base_of MoreExamples.no_id) = PyObj "tuple" 0 false /\
   require (base_of MoreExamples.no_id) = PyBool false /\
   default (base_of MoreExamples.no_id) = PyStr (u "x")).
Proof.
  pose proof (@identifier_truth_value Sample.regex Sample.mimetype
                (IntField_ None None None MoreExamples.one_kw)
                MoreExamples.uid eq_refl) as [H1 [H2 _]].
  pose proof (@identifier_truth_value Sample.regex Sample.mimetype
                (Field_ MoreExamples.empty_kw)
                MoreExamples.no_id eq_refl) as [H3 [_ H4]].
  split.
  - split; [exact H1 | exact (H2 eq_refl)].
  - split; [exact H3 | exact (H4 eq_refl)].
Defined.

Lemma other_attributes_kept_witness :
  unique (base_of MoreExamples.uid) = PyBool true /\
  index (base_of MoreExamples.uid) = PyBool false /\
  readwrite (base_of MoreExamples.uid) = PyList [PyStr (u "admin")].
Proof.
  pose proof (@other_attributes_kept Sample.regex Sample.mimetype
                (IntField_ None None None MoreExamples.one_kw)
                MoreExamples.uid eq_refl)
    as [_ [_ [_ [H4 [_ [_ [_ [H8 [H9 _]]]]]]]]].
  split; [exact H4 | split; [exact H8 | exact H9]].
Defined.

Lemma declared_check_on_strings_witness :
  check Examples.color (PyStr (u "red")) = Return tt \/
  check Examples.color (PyStr (u "red")) = Raise Core400Exception.
Proof.
  apply (@declared_check_on_strings Sample.regex Sample.mimetype
           (ColorField_ no_kw) Examples.color (u "red")).
  - reflexivity.
  - reflexivity.
  - discriminate.
Defined.

Lemma ListField_check_outcome_witness :
  ListField_check MoreExamples.tags
    (PyList (map PyStr [u "red"] ++ PyStr (u "<b>") :: [PyInt 5]))
  = Raise Core400Exception /\
  ListField_check MoreExamples.tags
    (PyList (map PyStr [u "red"] ++ PyInt 5 :: [PyStr (u "<b>")]))
  = Raise TypeError.
Proof.
  pose proof (@ListField_check_outcome Sample.regex MoreExamples.tags
                (XSS Sample.regex) [u "red"] (PyStr (u "<b>")) [PyInt 5] []
                eq_refl) as [_ [_ H1]].
  pose proof (@ListField_check_outcome Sample.regex MoreExamples.tags
                (XSS Sample.regex) [u "red"] (PyInt 5) [PyStr (u "<b>")] []
                eq_refl) as [_ [_ H2]].
  split.
  - exact (proj1 (H1 eq_refl) (u "<b>") eq_refl eq_refl).
  - exact (proj2 (H2 eq_refl) eq_refl).
Defined.

Lemma SetField_check_first_failure_witness :
  SetField_check Examples.colours_bytes
    (PyList ([PyStr (u "red")] ++ PyInt 5 :: [PyStr (u "green")]))
  = Raise AttributeError /\
  SetField_check Examples.colours_bytes
    (PyList ([PyStr (u "red")] ++ PyStr [55296] :: []))
  = Raise UnicodeEncodeError /\
  SetField_check Examples.colours_bytes
    (PyList ([PyStr (u "red")] ++ PyStr (u "green") :: [PyInt 5]))
  = Raise Core400Exception.
Proof.
  split; [|split].
  - exact (@SetField_check_first_failure Examples.colours_bytes
             [PyStr (u "red")] [PyStr (u "green")] (PyInt 5)
             eq_refl eq_refl).
  - exact (@SetField_check_first_failure Examples.colours_bytes
             [PyStr (u "red")] [] (PyStr [55296]) eq_refl eq_refl).
  - exact (@SetField_check_first_failure Examples.colours_bytes
             [PyStr (u "red")] [PyInt 5] (PyStr (u "green"))
             eq_refl eq_refl).
Defined.

Lemma SetField_is_EnumField_on_elements_witness :
  SetField_check Examples.colours_bytes (PyList [PyInt 5])
  = EnumField_check Examples.colours_bytes (PyInt 5).
Proof.
  apply (proj2 (@SetField_is_EnumField_on_elements Examples.colours_bytes
                  [] (PyInt 5))).
  discriminate.
Defined.

Lemma SetField_check_incl_witness :
  SetField_check (PyBytes (ascii_bytes "green") :: Examples.colours_bytes)
    (PyList [PyStr (u "blue"); PyStr (u "red"); PyStr (u "blue")])
  = Return tt.
Proof.
  apply (@SetField_check_incl Examples.colours_bytes
           (PyBytes (ascii_bytes "green") :: Examples.colours_bytes)
           [PyStr (u "red"); PyStr (u "blue")]
           [PyStr (u "blue"); PyStr (u "red"); PyStr (u "blue")]).
  - reflexivity.
  - intros x [<-|[<-|[<-|[]]]]; simpl; tauto.
  - intros x Hx. right. exact Hx.
Defined.

Lemma EnumField_check_ascii_witness :
  (EnumField_check Examples.colours_bytes (PyStr (u "red")) = Return tt
   <-> In (PyBytes (map octet (u "red"))) Examples.colours_bytes) /\
  (~ In (PyBytes (map octet (u "green"))) Examples.colours_bytes ->
   EnumField_check Examples.colours_bytes (PyStr (u "green"))
   = Raise Core400Exception).
Proof.
  split.
  - apply (@EnumField_check_ascii Examples.colours_bytes (u "red")).
    repeat constructor.
  - apply (@EnumField_check_ascii Examples.colours_bytes (u "green")).
    repeat constructor.
Defined.

Lemma surrogates_raise_UnicodeEncodeError_witness :
  EnumField_check Examples.colours_bytes (PyStr [97; 55296])
  = Raise UnicodeEncodeError.
Proof.
  apply (proj1 (@surrogates_raise_UnicodeEncodeError Examples.colours_bytes
                  [97; 55296] eq_refl)).
  reflexivity.
Defined.

Lemma EnumField_check_exact_witness :
  EnumField_check Examples.colours_bytes (PyStr (u "blue")) = Return tt
  <-> In (u "blue") [u "red"; u "blue"].
Proof.
  apply (@EnumField_check_exact [u "red"; u "blue"] Examples.colours_bytes
           (u "blue")).
  constructor; [|constructor; [|constructor]].
  - exists (ascii_bytes "red"). split; reflexivity.
  - exists (ascii_bytes "blue"). split; reflexivity.
Defined.

Lemma not_a_string_errors_witness :
  Field_check Examples.color_base (PyInt 5) = Raise TypeError /\
  StringField_check MoreExamples.tags (PyInt 5) = Raise TypeError /\
  SetField_check Examples.colours_bytes (PyList [PyInt 5; PyStr (u "red")])
  = Raise AttributeError.
Proof.
  split; [|split].
  - exact (proj1 (@not_a_string_errors Sample.regex Examples.color_base
                    (HTMLColor Sample.regex) [] [] (PyInt 5)
                    eq_refl eq_refl)).
  - exact (proj1 (proj2 (@not_a_string_errors Sample.regex
                           MoreExamples.tags (XSS Sample.regex) [] []
                           (PyInt 5) eq_refl eq_refl))).
  - exact (proj2 (proj2 (proj2 (proj2
             (@not_a_string_errors Sample.regex MoreExamples.tags
                (XSS Sample.regex) Examples.colours_bytes
                [PyStr (u "red")] (PyInt 5) eq_refl eq_refl))))).
Defined.

Lemma convert_and_codec_witness :
  convert Sample.pil MoreExamples.picture MoreExamples.text_file
  = Raise PIL_error /\
  convert Sample.pil
    (AnImageField Examples.plain (image Sample.mimetype) (u "image/bmp")
       (u "bmp")) MoreExamples.text_file
  = Return MoreExamples.text_file.
Proof.
  split.
  - apply (proj1 (proj1 (@convert_and_codec Sample.regex Sample.pil
                           Sample.pil (Field_init Sample.regex None no_kw)
                           (image Sample.mimetype) (u "image/png") (u "png")
                           MoreExamples.text_file PNG) eq_refl)).
    reflexivity.
  - apply (proj2 (@convert_and_codec Sample.regex Sample.pil Sample.pil
                    Examples.plain (image Sample.mimetype) (u "image/bmp")
                    (u "bmp") MoreExamples.text_file PNG)).
    reflexivity.
Defined.

